(** * MedTrack: the service-worker generator and the application bootstrap

    A shallow embedding of two pieces of the MedTrack front end:

    - [src/utils/firebase-sw-config.ts]: [getFirebaseServiceWorkerConfig] and
      [generateFirebaseServiceWorkerContent], the text template of the push
      service worker, together with the background-message handler that the
      template contains;
    - the root component [App]: its mount effect (delayed [initializeApp],
      the window-focus listener and the teardown closure).

    JavaScript strings are modelled as [string] (UTF-8 bytes), the
    environment object and the [data] object of a push payload as [gmap]s
    keyed by strings, and the effectful code of [App] in a small
    trace-and-exception monad. *)

From Stdlib Require Import String Ascii List Bool Arith Lia ZArith Sorted.
From stdpp Require Import base option gmap strings.
Import ListNotations.

Open Scope string_scope.

(** ** JavaScript strings *)

Module JsString.

(** The two characters that cannot be written inside a literal. *)
Definition nl : string := String (ascii_of_nat 10) EmptyString.
Definition dq : string := String (ascii_of_nat 34) EmptyString.

(** Lines of a template, joined by line feeds. *)
Definition unlines (ls : list string) : string := String.concat nl ls.

(** A string is truthy iff it is not empty. *)
Definition truthy (s : string) : bool := negb (s =? "").

(** [a && b] on strings: the left operand when it is falsy, else the right. *)
Definition js_and (a b : string) : string := if truthy a then b else a.

(** [v || d] where [v] may be [undefined]. *)
Definition js_or (v : option string) (d : string) : string :=
  match v with
  | Some s => if truthy s then s else d
  | None => d
  end.

(** [s.includes(needle)]. *)
Fixpoint includes (s needle : string) : bool :=
  String.prefix needle s ||
  match s with
  | EmptyString => false
  | String _ s' => includes s' needle
  end.

(** The relation that [includes] decides: [needle] occurs inside [s]. *)
Definition contains (s needle : string) : Prop :=
  exists pre post, s = pre ++ needle ++ post.

End JsString.

Import JsString.

(** ** The service-worker generator ([src/utils/firebase-sw-config.ts]) *)

Module FirebaseSw.

(** The object returned by [getFirebaseServiceWorkerConfig]. *)
Record FirebaseConfig := {
  apiKey : string;
  authDomain : string;
  projectId : string;
  storageBucket : string;
  messagingSenderId : string;
  appId : string
}.

(** The two places the environment may come from: [process.env], when
    [process] is defined and its [env] is truthy, else [import.meta.env].
    An environment is an object from variable names to strings. *)
Record process_object := { process_env : option (gmap string string) }.

Record globals := {
  process : option process_object;
  import_meta_env : gmap string string
}.

(** [typeof process !== 'undefined' && process.env ? process.env
     : import.meta.env] *)
Definition env (g : globals) : gmap string string :=
  match process g with
  | Some p =>
      match process_env p with
      | Some e => e
      | None => import_meta_env g
      end
  | None => import_meta_env g
  end.

Definition getFirebaseServiceWorkerConfig (g : globals) : FirebaseConfig :=
  let env := env g in
  {| apiKey := js_or (env !! "VITE_FIREBASE_API_KEY") "";
     authDomain := js_or (env !! "VITE_FIREBASE_AUTH_DOMAIN") "";
     projectId := js_or (env !! "VITE_FIREBASE_PROJECT_ID") "";
     storageBucket := js_or (env !! "VITE_FIREBASE_STORAGE_BUCKET") "";
     messagingSenderId := js_or (env !! "VITE_FIREBASE_MESSAGING_SENDER_ID") "";
     appId := js_or (env !! "VITE_FIREBASE_APP_ID") "" |}.

(** The six variables that are read. *)
Definition firebase_variables : list string :=
  [ "VITE_FIREBASE_API_KEY"; "VITE_FIREBASE_AUTH_DOMAIN";
    "VITE_FIREBASE_PROJECT_ID"; "VITE_FIREBASE_STORAGE_BUCKET";
    "VITE_FIREBASE_MESSAGING_SENDER_ID"; "VITE_FIREBASE_APP_ID" ].

(** [config.apiKey && config.projectId && config.messagingSenderId]: a
    string, used for its truthiness. *)
Definition hasValidConfig (config : FirebaseConfig) : string :=
  js_and (js_and (apiKey config) (projectId config)) (messagingSenderId config).

(** *** The pieces of the template literal *)

(** From the opening back-tick to the interpolation. *)
Definition header : string :=
  unlines
    [ "/**";
      " * Firebase Cloud Messaging Service Worker for MedTrack";
      " * Handles FCM push notifications when app is closed or in background";
      " * Generated automatically during build process";
      " */";
      "";
      "" ].

Definition import_app : string :=
  "importScripts('https://www.gstatic.com/firebasejs/10.7.1/firebase-app-compat.js');".

Definition import_messaging : string :=
  "importScripts('https://www.gstatic.com/firebasejs/10.7.1/firebase-messaging-compat.js');".

(** One line [  key: "value"] of the configuration object; the value is
    pasted between double quotes as it is. *)
Definition property (key value : string) : string :=
  "  " ++ key ++ ": " ++ dq ++ value ++ dq.

Definition firebaseConfig_literal (config : FirebaseConfig) : string :=
  "const firebaseConfig = {" ++ nl ++
  property "apiKey" (apiKey config) ++ "," ++ nl ++
  property "authDomain" (authDomain config) ++ "," ++ nl ++
  property "projectId" (projectId config) ++ "," ++ nl ++
  property "storageBucket" (storageBucket config) ++ "," ++ nl ++
  property "messagingSenderId" (messagingSenderId config) ++ "," ++ nl ++
  property "appId" (appId config) ++ nl ++
  "};".

(** The branch of the conditional taken when [hasValidConfig] is truthy. *)
Definition valid_branch (config : FirebaseConfig) : string :=
  nl ++
  "// Import Firebase scripts for service worker" ++ nl ++
  import_app ++ nl ++
  import_messaging ++ nl ++
  nl ++
  "// Firebase configuration" ++ nl ++
  firebaseConfig_literal config.

Definition disabled_warning : string :=
  "console.warn('🚧 Firebase configuration not available - FCM disabled');".

Definition null_config : string := "const firebaseConfig = null;".

(** The branch taken when [hasValidConfig] is falsy. *)
Definition disabled_branch : string :=
  nl ++
  "// Firebase configuration not available - FCM disabled in development" ++ nl ++
  disabled_warning ++ nl ++
  null_config.

(** After the interpolation: the initialisation of Firebase and the
    registration of the background-message handler. *)
Definition initialization_block : string :=
  unlines
    [ "";
      "";
      "// Initialize Firebase in service worker";
      "let messaging = null;";
      "";
      "try {";
      "  if (firebaseConfig && firebaseConfig.apiKey && firebaseConfig.projectId) {";
      "    // Only initialize Firebase if we have valid configuration";
      "    firebase.initializeApp(firebaseConfig);";
      "    messaging = firebase.messaging();";
      "    ";
      "    console.log('🔥 Firebase messaging initialized in service worker');";
      "";
      "    // Handle background push messages";
      "    messaging.onBackgroundMessage((payload) => {";
      "      console.log('📱 FCM background message received:', payload);";
      "      ";
      "      try {";
      "        // Extract notification data";
      "        const notificationTitle = payload.notification?.title || 'MedTrack Reminder';";
      "        const notificationOptions = {";
      "          body: payload.notification?.body || 'Time for your medication',";
      "          icon: payload.notification?.icon || '/pill-icon.svg',";
      "          badge: '/pill-icon.svg',";
      "          data: {";
      "            ...payload.data,";
      "            fcm: true,";
      "            timestamp: Date.now()";
      "          },";
      "          tag: payload.data?.medicationId ? `medication_${payload.data.medicationId}` : 'medtrack-fcm',";
      "          requireInteraction: true,";
      "          actions: [";
      "            { action: 'take', title: '✅ Taken', icon: '/pill-icon.svg' },";
      "            { action: 'snooze', title: '⏰ Snooze 15min', icon: '/pill-icon.svg' },";
      "            { action: 'skip', title: '⏸️ Skip', icon: '/pill-icon.svg' }";
      "          ],";
      "          vibrate: [200, 100, 200],";
      "          silent: false,";
      "          renotify: true";
      "        };";
      "";
      "        // Show the notification";
      "        return self.registration.showNotification(notificationTitle, notificationOptions);";
      "        ";
      "      } catch (error) {";
      "        console.error('Failed to show FCM background notification:', error);";
      "        ";
      "        // Fallback notification";
      "        return self.registration.showNotification('MedTrack Reminder', {";
      "          body: 'Time for your medication',";
      "          icon: '/pill-icon.svg',";
      "          badge: '/pill-icon.svg',";
      "          requireInteraction: true";
      "        });";
      "      }";
      "    });";
      "";
      "    console.log('✅ Firebase messaging service worker ready');";
      "  } else {";
      "    console.warn('⚠️ Firebase configuration incomplete - FCM disabled in development');";
      "  }";
      "";
      "} catch (error) {";
      "  console.error('❌ Failed to initialize Firebase in service worker:', error);";
      "}";
      "";
      "" ].

(** The end of the template: the stand-in messaging object and its export. *)
Definition fallback_block : string :=
  unlines
    [ "// Always create a fallback messaging object to prevent errors";
      "if (!messaging) {";
      "  messaging = {";
      "    onBackgroundMessage: () => {";
      "      console.warn('Firebase messaging not available - background push notifications disabled');";
      "    }";
      "  };";
      "}";
      "";
      "// Export messaging for potential use by main service worker";
      "self.firebaseMessaging = messaging;" ].

Definition generateFirebaseServiceWorkerContent (g : globals) : string :=
  let config := getFirebaseServiceWorkerConfig g in
  let hasValidConfig := hasValidConfig config in
  header ++
  (if truthy hasValidConfig then valid_branch config else disabled_branch) ++
  initialization_block ++
  fallback_block.

(** The text written when the configuration is not valid: one fixed
    string. *)
Definition disabled_output : string :=
  header ++ disabled_branch ++ initialization_block ++ fallback_block.

End FirebaseSw.

(** ** The generated script at run time

    The JavaScript that the template contains, lines 51-124 of
    [firebase-sw-config.ts]: the initialisation of [messaging], the
    background-message handler and the stand-in object. *)

Module ServiceWorker.

Import FirebaseSw.

(** [payload.notification] and the payload of a push message. The values of
    [payload.data] are strings. *)
Record NotificationPayload := {
  title : option string;
  body : option string;
  icon : option string
}.

Record MessagePayload := {
  notification : option NotificationPayload;
  data : option (gmap string string)
}.

(** The values stored under [data] of the notification options. *)
Inductive data_value :=
| DString (s : string)
| DBool (b : bool)
| DNumber (n : Z).

Record NotificationAction := {
  action : string;
  action_title : string;
  action_icon : string
}.

(** The second argument of [showNotification]; a field that a call leaves
    out is [None] (or the empty list). *)
Record NotificationOptions := {
  opt_body : string;
  opt_icon : string;
  opt_badge : string;
  opt_data : option (gmap string data_value);
  opt_tag : option string;
  opt_requireInteraction : bool;
  opt_actions : list NotificationAction;
  opt_vibrate : list Z;
  opt_silent : option bool;
  opt_renotify : option bool
}.

(** What the handler does, in order. *)
Inductive sw_effect :=
| SwConsoleLog (msg : string) (payload : MessagePayload)
| SwConsoleError (msg : string)
| ShowNotification (notificationTitle : string) (options : NotificationOptions).

(** [payload.data?.medicationId ? `medication_${payload.data.medicationId}`
     : 'medtrack-fcm'] *)
Definition notification_tag (payload : MessagePayload) : string :=
  match data payload ≫= (.!! "medicationId") with
  | Some medicationId =>
      if truthy medicationId then "medication_" ++ medicationId
      else "medtrack-fcm"
  | None => "medtrack-fcm"
  end.

(** [{ ...payload.data, fcm: true, timestamp: Date.now() }] *)
Definition notification_data (now : Z) (payload : MessagePayload)
  : gmap string data_value :=
  <["timestamp" := DNumber now]>
    (<["fcm" := DBool true]> (DString <$> default ∅ (data payload))).

Definition notificationTitle (payload : MessagePayload) : string :=
  js_or (notification payload ≫= title) "MedTrack Reminder".

Definition notificationOptions (now : Z) (payload : MessagePayload)
  : NotificationOptions :=
  {| opt_body := js_or (notification payload ≫= body) "Time for your medication";
     opt_icon := js_or (notification payload ≫= icon) "/pill-icon.svg";
     opt_badge := "/pill-icon.svg";
     opt_data := Some (notification_data now payload);
     opt_tag := Some (notification_tag payload);
     opt_requireInteraction := true;
     opt_actions :=
       [ {| action := "take"; action_title := "✅ Taken";
            action_icon := "/pill-icon.svg" |};
         {| action := "snooze"; action_title := "⏰ Snooze 15min";
            action_icon := "/pill-icon.svg" |};
         {| action := "skip"; action_title := "⏸️ Skip";
            action_icon := "/pill-icon.svg" |} ];
     opt_vibrate := [200; 100; 200]%Z;
     opt_silent := Some false;
     opt_renotify := Some true |}.

(** The options of the notification shown from the [catch] block. *)
Definition fallbackOptions : NotificationOptions :=
  {| opt_body := "Time for your medication";
     opt_icon := "/pill-icon.svg";
     opt_badge := "/pill-icon.svg";
     opt_data := None;
     opt_tag := None;
     opt_requireInteraction := true;
     opt_actions := [];
     opt_vibrate := [];
     opt_silent := None;
     opt_renotify := None |}.

(** The callback given to [messaging.onBackgroundMessage]. Whether
    [self.registration.showNotification] throws is decided by
    [showNotification_throws]; [now] is the value of [Date.now()]. *)
Definition onBackgroundMessage
    (showNotification_throws : string -> NotificationOptions -> bool)
    (now : Z) (payload : MessagePayload) : list sw_effect :=
  let notificationTitle := notificationTitle payload in
  let notificationOptions := notificationOptions now payload in
  SwConsoleLog "📱 FCM background message received:" payload ::
  ShowNotification notificationTitle notificationOptions ::
  if showNotification_throws notificationTitle notificationOptions then
    [ SwConsoleError "Failed to show FCM background notification:";
      ShowNotification "MedTrack Reminder" fallbackOptions ]
  else [].

(** The notifications the handler asks the browser to show. *)
Fixpoint shown (effects : list sw_effect)
  : list (string * NotificationOptions) :=
  match effects with
  | [] => []
  | ShowNotification t o :: rest => (t, o) :: shown rest
  | _ :: rest => shown rest
  end.

(** The value of the variable [messaging]: [None] is [null]. *)
Inductive messaging_object :=
| FirebaseMessaging
| StandIn.

(** Where the [try] block of the initialisation may throw. *)
Inductive firebase_behaviour :=
| InitializeAppThrows
| MessagingThrows
| OnBackgroundMessageThrows
| FirebaseWorks.

(** Lines 51-112: [let messaging = null; try { if (firebaseConfig &&
    firebaseConfig.apiKey && firebaseConfig.projectId) { ... } else { ... } }
    catch (error) { ... }]. [firebaseConfig] is [None] for [null]. *)
Definition initialize_messaging (firebaseConfig : option FirebaseConfig)
    (firebase : firebase_behaviour) : option messaging_object :=
  match firebaseConfig with
  | Some config =>
      if truthy (js_and (apiKey config) (projectId config)) then
        match firebase with
        | InitializeAppThrows | MessagingThrows => None
        | OnBackgroundMessageThrows | FirebaseWorks => Some FirebaseMessaging
        end
      else None
  | None => None
  end.

(** Lines 115-121: [if (!messaging) { messaging = { ... } }]. *)
Definition fallback_messaging (messaging : option messaging_object)
  : option messaging_object :=
  match messaging with
  | None => Some StandIn
  | Some m => Some m
  end.

(** Line 124: the value assigned to [self.firebaseMessaging]. *)
Definition self_firebaseMessaging (firebaseConfig : option FirebaseConfig)
    (firebase : firebase_behaviour) : option messaging_object :=
  fallback_messaging (initialize_messaging firebaseConfig firebase).

End ServiceWorker.

(** ** The bootstrap of the component [App] (lines 42-129 of its file) *)

Module App.

#[local] Open Scope list_scope.

Section Bootstrap.

(** The types of the store and of thrown values are declared elsewhere. *)
Context {Reminder Medication UserProfile Error : Type}.

(** The record returned by [diagnoseIOSPWANotificationIssues]; only its
    field [coreIssue], a string, is read. *)
Record Diagnostic := { coreIssue : string }.

(** The part of [useMedicationStore.getState()] that is read. *)
Record StoreState := {
  reminders : list Reminder;
  medications : list Medication;
  userProfile : option UserProfile
}.

(** How a call ends: [await] of a promise that resolves or rejects, or a
    plain call that returns or throws. *)
Inductive outcome (A : Type) :=
| Resolved (a : A)
| Rejected (error : Error).

Arguments Resolved {A} a.
Arguments Rejected {A} error.

(** The two closures that the effect hands to the browser. *)
Inductive callback :=
| InitializeApp
| HandleFocus.

(** What can be observed of a run: console output, reads of the store,
    calls of the two services with the way each ended, and calls of the
    browser API. *)
Inductive event :=
| GetState (state : StoreState)
| ConsoleLog (msg : string)
| ConsoleLogDiagnostic (msg : string) (diagnostic : Diagnostic)
| ConsoleWarn (msg : string)
| ConsoleError (msg : string) (error : Error)
| BackendInitialize (r : outcome unit)
| SyncUserDataToBackend (rs : list Reminder) (ms : list Medication)
    (profile : option UserProfile) (r : outcome bool)
| MigrateExistingReminders (rs : list Reminder) (ms : list Medication)
    (r : outcome unit)
| DiagnoseIOSPWANotificationIssues (r : outcome Diagnostic)
| ImplementMissedDoseRecovery (r : outcome unit)
| CheckMissedNotifications (r : outcome unit)
| SetTimeout (handler : callback) (delay : nat) (id : nat)
| ClearTimeout (id : nat)
| AddEventListener (type : string) (listener : callback)
| RemoveEventListener (type : string) (listener : callback).

(** The calls of [backendSyncService]. *)
Definition backend_call (e : event) : bool :=
  match e with
  | BackendInitialize _ | SyncUserDataToBackend _ _ _ _ => true
  | _ => false
  end.

(** The calls of the diagnostic step: the diagnostic, the recovery and the
    check for missed notifications. *)
Definition diagnostic_call (e : event) : bool :=
  match e with
  | DiagnoseIOSPWANotificationIssues _ | ImplementMissedDoseRecovery _
  | CheckMissedNotifications _ => true
  | _ => false
  end.

(** The collaborators: the store, [backendSyncService] and
    [notificationService]. What a call answers may depend on everything that
    happened before it. *)
Record world := {
  getState : list event -> StoreState;
  initialize : list event -> outcome unit;
  syncUserDataToBackend :
    list event -> list Reminder -> list Medication -> option UserProfile ->
    outcome bool;
  migrateExistingReminders :
    list event -> list Reminder -> list Medication -> outcome unit;
  diagnoseIOSPWANotificationIssues : list event -> outcome Diagnostic;
  implementMissedDoseRecovery : list event -> outcome unit;
  checkMissedNotifications : list event -> outcome unit
}.

(** *** Computations that append to a trace and may throw

    A computation reads the history so far and yields the events it adds
    and the way it ends. *)
Definition M (A : Type) : Type := list event -> list event * outcome A.

Definition ret {A : Type} (a : A) : M A := fun _ => ([], Resolved a).

Definition bind {A B : Type} (m : M A) (k : A -> M B) : M B :=
  fun h =>
    match m h with
    | (t1, Resolved a) =>
        match k a (h ++ t1) with
        | (t2, r) => (t1 ++ t2, r)
        end
    | (t1, Rejected error) => (t1, Rejected error)
    end.

(** [try { m } catch (error) { handler }] *)
Definition try_catch {A : Type} (m : M A) (handler : Error -> M A) : M A :=
  fun h =>
    match m h with
    | (t1, Resolved a) => (t1, Resolved a)
    | (t1, Rejected error) =>
        match handler error (h ++ t1) with
        | (t2, r) => (t1 ++ t2, r)
        end
    end.

Definition emit (e : event) : M unit := fun _ => ([e], Resolved tt).

(** A call of a collaborator, recorded with its outcome. *)
Definition call {A : Type} (f : list event -> outcome A)
    (record : outcome A -> event) : M A :=
  fun h => ([record (f h)], f h).

(** A read of the store, recorded with the state it returns. *)
Definition read (f : list event -> StoreState) : M StoreState :=
  fun h => ([GetState (f h)], Resolved (f h)).

Declare Scope trace_scope.
#[local] Notation "x ← y ; z" := (bind y (fun x => z))
  (at level 20, y at level 100, z at level 200, only parsing) : trace_scope.
#[local] Notation "x ;; z" := (bind x (fun _ => z))
  (at level 100, z at level 200, only parsing, right associativity)
  : trace_scope.
#[local] Open Scope trace_scope.

(** The events a computation adds after the history [h]. *)
Definition events {A : Type} (m : M A) (h : list event) : list event :=
  fst (m h).

Variable w : world.

Definition console_log (msg : string) : M unit := emit (ConsoleLog msg).
Definition console_warn (msg : string) : M unit := emit (ConsoleWarn msg).
Definition console_error (msg : string) (error : Error) : M unit :=
  emit (ConsoleError msg error).

(** Lines 54-77: the [try] block around the backend sync. *)
Definition backend_sync_block (reminders : list Reminder)
    (medications : list Medication) : M unit :=
  try_catch
    (console_log "🔄 Initializing backend sync service..." ;;
     call (initialize w) BackendInitialize ;;
     console_log "✅ Backend sync service initialized successfully" ;;
     if (0 <? List.length reminders)%nat || (0 <? List.length medications)%nat
     then
       console_log "📤 Syncing existing data to backend..." ;;
       state ← read (getState w);
       syncSuccess ←
         call (fun h => syncUserDataToBackend w h reminders medications
                          (userProfile state))
              (SyncUserDataToBackend reminders medications
                 (userProfile state));
       if syncSuccess then
         console_log
           "✅ Initial backend sync completed - iOS PWA notifications enabled"
       else
         console_warn
           "⚠️ Initial backend sync failed - using client-side only"
     else ret tt)
    (fun error =>
       console_error "❌ Backend sync initialization failed:" error ;;
       console_log "📱 Falling back to client-side notifications only").

(** Lines 80-88: the migration of the reminders. *)
Definition migration_block (reminders : list Reminder)
    (medications : list Medication) : M unit :=
  if (0 <? List.length reminders)%nat && (0 <? List.length medications)%nat
  then
    try_catch
      (console_log "🔄 Starting iOS PWA reminder migration..." ;;
       call (fun h => migrateExistingReminders w h reminders medications)
            (MigrateExistingReminders reminders medications) ;;
       console_log "✅ iOS PWA reminder migration completed")
      (fun error => console_error "❌ iOS PWA reminder migration failed:" error)
  else ret tt.

(** Lines 93-111: the diagnostic, the recovery and the check for missed
    notifications. The call of [checkMissedNotifications] is not awaited:
    [Rejected] stands for a call that throws. *)
Definition diagnostic_block : M unit :=
  try_catch
    (diagnostic ←
       call (diagnoseIOSPWANotificationIssues w)
            DiagnoseIOSPWANotificationIssues;
     emit (ConsoleLogDiagnostic
             "📊 iOS PWA Notification Diagnostic Results:" diagnostic) ;;
     (if includes (coreIssue diagnostic) "iOS Safari" then
        console_log
          "🍎 iOS PWA detected - implementing missed dose recovery system" ;;
        call (implementMissedDoseRecovery w) ImplementMissedDoseRecovery
      else ret tt) ;;
     call (checkMissedNotifications w) CheckMissedNotifications)
    (fun error =>
       console_error "❌ Failed to run iOS PWA diagnostic:" error ;;
       call (checkMissedNotifications w) CheckMissedNotifications).

(** Lines 43-112. The expression statement [consoleCapture;] has no effect
    of its own. *)
Definition initializeApp : M unit :=
  console_log "App loaded, initializing iOS PWA notification system..." ;;
  state ← read (getState w);
  let reminders := reminders state in
  let medications := medications state in
  backend_sync_block reminders medications ;;
  migration_block reminders medications ;;
  console_log "Running iOS PWA notification diagnostic and recovery..." ;;
  diagnostic_block.

(** Lines 118-121. *)
Definition handleFocus : M unit :=
  console_log "Window gained focus, checking for missed notifications" ;;
  call (checkMissedNotifications w) CheckMissedNotifications.

Definition run_callback (cb : callback) : M unit :=
  match cb with
  | InitializeApp => initializeApp
  | HandleFocus => handleFocus
  end.

(** *** The browser: timers and listeners *)

Record timer := {
  timer_id : nat;
  timer_due : nat;
  timer_handler : callback
}.

(** [cleanup] is the closure returned by the effect while the component is
    mounted; it holds the identifier [timer]. *)
Record browser := {
  now : nat;
  next_timer_id : nat;
  timers : list timer;
  listeners : list (string * callback);
  history : list event;
  cleanup : option nat
}.

Definition callback_eqb (a b : callback) : bool :=
  match a, b with
  | InitializeApp, InitializeApp | HandleFocus, HandleFocus => true
  | _, _ => false
  end.

Definition listener_eqb (a b : string * callback) : bool :=
  (fst a =? fst b)%string && callback_eqb (snd a) (snd b).

Definition setTimeout (handler : callback) (delay : nat) (b : browser)
  : nat * browser :=
  let id := next_timer_id b in
  (id,
   {| now := now b;
      next_timer_id := S id;
      timers :=
        timers b ++
        [ {| timer_id := id; timer_due := now b + delay;
             timer_handler := handler |} ];
      listeners := listeners b;
      history := history b ++ [SetTimeout handler delay id];
      cleanup := cleanup b |}).

Definition clearTimeout (id : nat) (b : browser) : browser :=
  {| now := now b;
     next_timer_id := next_timer_id b;
     timers := List.filter (fun t => negb (timer_id t =? id)%nat) (timers b);
     listeners := listeners b;
     history := history b ++ [ClearTimeout id];
     cleanup := cleanup b |}.

(** A listener that is already registered is not added again. *)
Definition addEventListener (type : string) (listener : callback)
    (b : browser) : browser :=
  {| now := now b;
     next_timer_id := next_timer_id b;
     timers := timers b;
     listeners :=
       if existsb (listener_eqb (type, listener)) (listeners b)
       then listeners b
       else listeners b ++ [(type, listener)];
     history := history b ++ [AddEventListener type listener];
     cleanup := cleanup b |}.

Definition removeEventListener (type : string) (listener : callback)
    (b : browser) : browser :=
  {| now := now b;
     next_timer_id := next_timer_id b;
     timers := timers b;
     listeners :=
       List.filter (fun l => negb (listener_eqb (type, listener) l))
         (listeners b);
     history := history b ++ [RemoveEventListener type listener];
     cleanup := cleanup b |}.

(** The browser runs a callback to its end; what the callback returns or
    throws is dropped. The events of a callback are kept together: what
    another callback could add while the body of [initializeApp] awaits is
    not interleaved with them. *)
Definition invoke (cb : callback) (b : browser) : browser :=
  {| now := now b;
     next_timer_id := next_timer_id b;
     timers := timers b;
     listeners := listeners b;
     history := history b ++ events (run_callback cb) (history b);
     cleanup := cleanup b |}.

(** Lines 115-128: the body of the effect, run when [App] mounts. *)
Definition mount (b : browser) : browser :=
  let (timer, b) := setTimeout InitializeApp 1500 b in
  let b := addEventListener "focus" HandleFocus b in
  {| now := now b;
     next_timer_id := next_timer_id b;
     timers := timers b;
     listeners := listeners b;
     history := history b;
     cleanup := Some timer |}.

(** Lines 125-128: the closure returned by the effect, run when [App]
    unmounts. *)
Definition unmount (b : browser) : browser :=
  match cleanup b with
  | Some timer =>
      let b := clearTimeout timer b in
      let b := removeEventListener "focus" HandleFocus b in
      {| now := now b;
         next_timer_id := next_timer_id b;
         timers := timers b;
         listeners := listeners b;
         history := history b;
         cleanup := None |}
  | None => b
  end.

(** What happens to a mounted [App]: time passes, the browser fires a timer
    that is due, the window gains focus, the component unmounts. *)
Inductive action :=
| Elapse (ms : nat)
| Fire (id : nat)
| Focus
| Unmount.

Definition elapse (ms : nat) (b : browser) : browser :=
  {| now := now b + ms;
     next_timer_id := next_timer_id b;
     timers := timers b;
     listeners := listeners b;
     history := history b;
     cleanup := cleanup b |}.

(** A pending timer fires at most once, and not before it is due. *)
Definition fire (id : nat) (b : browser) : browser :=
  match List.find (fun t => (timer_id t =? id)%nat) (timers b) with
  | Some t =>
      if (timer_due t <=? now b)%nat then
        invoke (timer_handler t)
          {| now := now b;
             next_timer_id := next_timer_id b;
             timers :=
               List.filter (fun t => negb (timer_id t =? id)%nat) (timers b);
             listeners := listeners b;
             history := history b;
             cleanup := cleanup b |}
      else b
  | None => b
  end.

(** The listeners registered for [type] when the event is dispatched run in
    the order of their registration. *)
Definition dispatch (type : string) (b : browser) : browser :=
  fold_left (fun b l => invoke (snd l) b)
    (List.filter (fun l => (fst l =? type)%string) (listeners b)) b.

Definition step (b : browser) (a : action) : browser :=
  match a with
  | Elapse ms => elapse ms b
  | Fire id => fire id b
  | Focus => dispatch "focus" b
  | Unmount => unmount b
  end.

Definition run (actions : list action) (b : browser) : browser :=
  fold_left step actions b.

(** The time that passes during a list of actions. *)
Fixpoint elapsed (actions : list action) : nat :=
  match actions with
  | [] => 0
  | Elapse ms :: rest => ms + elapsed rest
  | _ :: rest => elapsed rest
  end.

(** The number of times the window gains focus. *)
Fixpoint focus_count (actions : list action) : nat :=
  match actions with
  | [] => 0
  | Focus :: rest => S (focus_count rest)
  | _ :: rest => focus_count rest
  end.

(** [App] is mounted and its timer, the first of the page, has not fired:
    the timer and the listener are the only ones, and the teardown closure
    holds the identifier of the timer. *)
Definition pending (b : browser) : Prop :=
  timers b =
    [ {| timer_id := 1; timer_due := 1500; timer_handler := InitializeApp |} ] /\
  listeners b = [("focus", HandleFocus)] /\
  cleanup b = Some 1.

(** [App] is unmounted: nothing is left for the browser to call. *)
Definition torn_down (b : browser) : Prop :=
  timers b = [] /\ listeners b = [] /\ cleanup b = None.

(** A page in which nothing has happened yet. *)
Definition new_page : browser :=
  {| now := 0; next_timer_id := 1; timers := []; listeners := [];
     history := []; cleanup := None |}.

End Bootstrap.

Arguments Resolved {Error A} a.
Arguments Rejected {Error A} error.

End App.

(** ** Sample inputs *)

Module Samples.

Import FirebaseSw ServiceWorker.

(** A build in which [process.env] holds the six variables. *)
Definition build_globals : globals :=
  {| process :=
       Some {| process_env :=
                 Some (list_to_map
                   [ ("VITE_FIREBASE_API_KEY", "AIza-key");
                     ("VITE_FIREBASE_AUTH_DOMAIN", "medtrack.firebaseapp.com");
                     ("VITE_FIREBASE_PROJECT_ID", "medtrack");
                     ("VITE_FIREBASE_STORAGE_BUCKET", "");
                     ("VITE_FIREBASE_MESSAGING_SENDER_ID", "1234567890");
                     ("VITE_FIREBASE_APP_ID", "1:1234567890:web:abc") ]) |};
     import_meta_env := ∅ |}.

(** The same values seen in the browser, where [process] is not defined:
    the empty storage bucket is left out and another variable is present. *)
Definition browser_globals : globals :=
  {| process := None;
     import_meta_env :=
       list_to_map
         [ ("MODE", "production");
           ("VITE_FIREBASE_API_KEY", "AIza-key");
           ("VITE_FIREBASE_AUTH_DOMAIN", "medtrack.firebaseapp.com");
           ("VITE_FIREBASE_PROJECT_ID", "medtrack");
           ("VITE_FIREBASE_MESSAGING_SENDER_ID", "1234567890");
           ("VITE_FIREBASE_APP_ID", "1:1234567890:web:abc") ] |}.

(** A message whose notification brings its own icon. *)
Definition payload_with_icon : MessagePayload :=
  {| notification :=
       Some {| title := Some "Aspirin"; body := None;
               icon := Some "/custom-icon.png" |};
     data := None |}.

(** Messages whose data carry a medication identifier: ["42"], and the
    empty string. *)
Definition payload_medication_42 : MessagePayload :=
  {| notification := None; data := Some {[ "medicationId" := "42" ]} |}.

Definition payload_empty_medication : MessagePayload :=
  {| notification := None; data := Some {[ "medicationId" := "" ]} |}.

Definition never_throws (_ : string) (_ : NotificationOptions) : bool := false.

(** A phone without network, in the installed app of iOS Safari: the store
    holds one reminder and one medication, [initialize()] rejects, the
    diagnostic reports the platform. *)
Definition offline_world : @App.world nat nat unit string :=
  {| App.getState := fun _ =>
       {| App.reminders := [1]; App.medications := [7];
          App.userProfile := Some tt |};
     App.initialize := fun _ => App.Rejected "network error";
     App.syncUserDataToBackend := fun _ _ _ _ => App.Resolved true;
     App.migrateExistingReminders := fun _ _ _ => App.Resolved tt;
     App.diagnoseIOSPWANotificationIssues := fun _ =>
       App.Resolved
         {| App.coreIssue :=
              "iOS Safari PWA does not deliver background notifications" |};
     App.implementMissedDoseRecovery := fun _ => App.Resolved tt;
     App.checkMissedNotifications := fun _ => App.Resolved tt |}.

(** The user looks at the page and leaves it within a second and a half;
    later the browser tries the timer and the window gains focus again. *)
Definition before_unmount : list App.action :=
  [ App.Elapse 1000; App.Focus; App.Elapse 499 ].

Definition after_unmount : list App.action :=
  [ App.Elapse 2000; App.Fire 1; App.Focus ].

End Samples.

(** ** Measures on the traces and states of the bootstrap *)

Module AppTrace.

Import App.

#[local] Open Scope list_scope.

Section Trace.

Context {Reminder Medication UserProfile Error : Type}.

(** The place of a service call in the body of [initializeApp]; console
    output and reads of the store have none. *)
Definition step_rank
    (e : @event Reminder Medication UserProfile Error) : option nat :=
  match e with
  | BackendInitialize _ => Some 1
  | SyncUserDataToBackend _ _ _ _ => Some 2
  | MigrateExistingReminders _ _ _ => Some 3
  | DiagnoseIOSPWANotificationIssues _ => Some 4
  | ImplementMissedDoseRecovery _ => Some 5
  | CheckMissedNotifications _ => Some 6
  | _ => None
  end.

(** The service calls of a trace, in order, each by its place. *)
Definition service_calls
    (t : list (@event Reminder Medication UserProfile Error)) : list nat :=
  omap step_rank t.

(** The first statement of [initializeApp]. *)
Definition is_start
    (e : @event Reminder Medication UserProfile Error) : bool :=
  match e with
  | ConsoleLog msg =>
      (msg =? "App loaded, initializing iOS PWA notification system...")%string
  | _ => false
  end.

(** The first statement of [handleFocus]. *)
Definition is_focus_log
    (e : @event Reminder Medication UserProfile Error) : bool :=
  match e with
  | ConsoleLog msg =>
      (msg =? "Window gained focus, checking for missed notifications")%string
  | _ => false
  end.

Definition count_events
    (p : @event Reminder Medication UserProfile Error -> bool)
    (t : list (@event Reminder Medication UserProfile Error)) : nat :=
  List.length (List.filter p t).

(** [x] is directly followed by [y] in [t]. *)
Definition followed_by
    (x y : @event Reminder Medication UserProfile Error)
    (t : list (@event Reminder Medication UserProfile Error)) : Prop :=
  exists before after, t = before ++ x :: y :: after.

(** [App] is mounted and its timer has fired: only the listener is left. *)
Definition fired
    (b : @browser Reminder Medication UserProfile Error) : Prop :=
  timers b = [] /\
  listeners b = [("focus", HandleFocus)] /\
  cleanup b = Some 1.

End Trace.

End AppTrace.

(** ** The global slot for update notifications (lines 132-140)

    The effect stores in [window.showAppUpdateNotification] a closure over
    [showUpdateNotification], and its cleanup deletes the property. The
    effect depends on [showUpdateNotification]: when a render brings another
    function, the cleanup of the previous effect runs, then the effect
    again. *)

Module UpdateSlot.

#[local] Open Scope list_scope.

Section Slot.

(** The callbacks that callers of the slot pass. *)
Context {Callback : Type}.

(** [slot] is the property of [window]: [None] when it is absent, else the
    function [showUpdateNotification] the closure holds, named by a number.
    [dependency] is the function the mounted effect last ran with.
    [prompts] lists the calls of [showUpdateNotification]. *)
Record state := {
  slot : option nat;
  dependency : option nat;
  prompts : list (nat * Callback)
}.

Definition initial : state :=
  {| slot := None; dependency := None; prompts := [] |}.

(** What happens: [App] renders with the function [showUpdateNotification]
    of that render, somebody calls the slot, [App] unmounts. *)
Inductive action :=
| Render (showUpdateNotification : nat)
| CallSlot (callback : Callback)
| Unmount.

(** Lines 133-135. *)
Definition effect (showUpdateNotification : nat) (s : state) : state :=
  {| slot := Some showUpdateNotification;
     dependency := Some showUpdateNotification;
     prompts := prompts s |}.

(** Lines 137-139. *)
Definition cleanup (s : state) : state :=
  {| slot := None; dependency := None; prompts := prompts s |}.

Definition step (s : state) (a : action) : state :=
  match a with
  | Render f =>
      match dependency s with
      | None => effect f s
      | Some g => if (f =? g)%nat then s else effect f (cleanup s)
      end
  | CallSlot callback =>
      match slot s with
      | Some f =>
          {| slot := slot s; dependency := dependency s;
             prompts := prompts s ++ [(f, callback)] |}
      | None => s
      end
  | Unmount =>
      match dependency s with
      | Some _ => cleanup s
      | None => s
      end
  end.

Definition run (actions : list action) (s : state) : state :=
  fold_left step actions s.

(** The function of the last render, if [App] is still mounted. *)
Definition current (actions : list action) : option nat :=
  fold_left
    (fun c a =>
       match a with
       | Render f => Some f
       | CallSlot _ => c
       | Unmount => None
       end)
    actions None.

End Slot.

End UpdateSlot.

(** ** The routes (lines 145-158)

    The table of [<Route>] elements. How a pattern matches a location is the
    business of the router: [matchPath] stands for it. *)

Module Router.

#[local] Open Scope list_scope.

Inductive page :=
| Dashboard | Medications | Inventory | Calendar | Analytics | Settings
| Reminders | Reports | HealthProfile | Wiki | CyclicDosing.

(** [<Navigate to=... replace />] sends the router to another location. *)
Inductive element :=
| Page (p : page)
| Navigate (to : string).

Definition routes : list (string * element) :=
  [ ("/", Navigate "/dashboard");
    ("/dashboard", Page Dashboard);
    ("/medications", Page Medications);
    ("/inventory", Page Inventory);
    ("/calendar", Page Calendar);
    ("/analytics", Page Analytics);
    ("/settings", Page Settings);
    ("/reminders", Page Reminders);
    ("/reports", Page Reports);
    ("/profile", Page HealthProfile);
    ("/wiki", Page Wiki);
    ("/cyclic-dosing", Page CyclicDosing);
    ("*", Navigate "/dashboard") ].

Section Matching.

(** [matchPath pattern location]. *)
Variable matchPath : string -> string -> bool.

(** The element of the first route whose pattern matches. *)
Definition render (location : string) : option element :=
  match List.find (fun r => matchPath (fst r) location) routes with
  | Some r => Some (snd r)
  | None => None
  end.

(** Follow the redirections, at most [fuel] of them plus one: the location
    where the router settles and the page it shows there. *)
Fixpoint settle (fuel : nat) (location : string) : option (string * page) :=
  match render location with
  | Some (Page p) => Some (location, p)
  | Some (Navigate to) =>
      match fuel with
      | 0 => None
      | S fuel => settle fuel to
      end
  | None => None
  end.

End Matching.

(** A matcher that takes a pattern literally, [*] apart. *)
Definition exact_match (pattern location : string) : bool :=
  (pattern =? "*")%string || (pattern =? location)%string.

End Router.

(** ** Values that can be read back from the text *)

Module FirebaseSwText.

Import FirebaseSw.

Definition config_values (config : FirebaseConfig) : list string :=
  [ apiKey config; authDomain config; projectId config;
    storageBucket config; messagingSenderId config; appId config ].

(** No value holds a double quote. *)
Definition quote_free (config : FirebaseConfig) : bool :=
  forallb (fun v => negb (includes v dq)) (config_values config).

End FirebaseSwText.

(** ** More sample inputs *)

Module Scenarios.

Import FirebaseSw ServiceWorker.

(** A build whose [process.env] holds none of the variables, although
    [import.meta.env] holds them all. *)
Definition bare_process_globals : globals :=
  {| process := Some {| process_env := Some ∅ |};
     import_meta_env := import_meta_env Samples.browser_globals |}.

(** Two configurations that differ, with a double quote inside a value, and
    give the same text. *)
Definition quoting_globals_1 : globals :=
  {| process := None;
     import_meta_env :=
       list_to_map
         [ ("VITE_FIREBASE_API_KEY",
            "k" ++ dq ++ "," ++ nl ++ "  authDomain: " ++ dq ++ "a");
           ("VITE_FIREBASE_AUTH_DOMAIN", "b");
           ("VITE_FIREBASE_PROJECT_ID", "p");
           ("VITE_FIREBASE_MESSAGING_SENDER_ID", "1") ] |}.

Definition quoting_globals_2 : globals :=
  {| process := None;
     import_meta_env :=
       list_to_map
         [ ("VITE_FIREBASE_API_KEY", "k");
           ("VITE_FIREBASE_AUTH_DOMAIN",
            "a" ++ dq ++ "," ++ nl ++ "  authDomain: " ++ dq ++ "b");
           ("VITE_FIREBASE_PROJECT_ID", "p");
           ("VITE_FIREBASE_MESSAGING_SENDER_ID", "1") ] |}.

(** A message that tries to set the keys the handler sets itself. *)
Definition payload_spoofing : MessagePayload :=
  {| notification := None;
     data :=
       Some (list_to_map
               [ ("fcm", "false"); ("timestamp", "0");
                 ("medicationId", "42") ]) |}.

(** A server on which the sync fails and the migration fails: the store
    holds reminders and medications, [initialize()] resolves. *)
Definition failing_sync_world : @App.world nat nat unit string :=
  {| App.getState := fun _ =>
       {| App.reminders := [1]; App.medications := [7];
          App.userProfile := Some tt |};
     App.initialize := fun _ => App.Resolved tt;
     App.syncUserDataToBackend := fun _ _ _ _ => App.Rejected "sync down";
     App.migrateExistingReminders := fun _ _ _ =>
       App.Rejected "migration broke";
     App.diagnoseIOSPWANotificationIssues := fun _ =>
       App.Rejected "no diagnostic";
     App.implementMissedDoseRecovery := fun _ => App.Resolved tt;
     App.checkMissedNotifications := fun _ => App.Rejected "check broke" |}.

(** The timer fires in time, the window gains focus twice, then [App]
    unmounts and the window gains focus once more. *)
Definition mounted_actions : list App.action :=
  [ App.Elapse 1500; App.Fire 1; App.Focus; App.Fire 1; App.Focus ].

Definition later_actions : list App.action :=
  [ App.Focus; App.Fire 1 ].

(** A valid configuration whose API key holds a double quote. *)
Definition quoted_key_globals : globals :=
  {| process := None;
     import_meta_env :=
       list_to_map
         [ ("VITE_FIREBASE_API_KEY", "AIza" ++ dq ++ "x");
           ("VITE_FIREBASE_AUTH_DOMAIN", "medtrack.firebaseapp.com");
           ("VITE_FIREBASE_PROJECT_ID", "medtrack");
           ("VITE_FIREBASE_STORAGE_BUCKET", "medtrack.appspot.com");
           ("VITE_FIREBASE_MESSAGING_SENDER_ID", "1234567890");
           ("VITE_FIREBASE_APP_ID", "1:1234567890:web:abc") ] |}.

End Scenarios.

(** ** The configuration object as the script's reader sees it

    Lines 38-45 of [firebase-sw-config.ts] paste each value between two
    double quotes. Whether the text so obtained is a string literal of the
    value is a question about how JavaScript reads a double-quoted literal:
    it runs from a double quote to the next one that is not escaped; a line
    terminator inside it is a syntax error, and a backslash starts an escape
    sequence, which stands for something other than itself. So the text
    between the quotes is the value of the literal exactly when it holds no
    double quote, no backslash and no line terminator. *)

Module ObjectLiteral.

Import FirebaseSw.

(** [t] without its prefix [p], when it starts with [p]. *)
Fixpoint expect (p t : string) : option string :=
  match p with
  | EmptyString => Some t
  | String a p' =>
      match t with
      | String b t' => if Ascii.eqb a b then expect p' t' else None
      | EmptyString => None
      end
  end.

(** The characters that stand for themselves inside a double-quoted literal:
    all but the double quote, the backslash, the line feed and the carriage
    return. *)
Definition plain_char (c : ascii) : bool :=
  negb (Ascii.eqb c "034") && negb (Ascii.eqb c "\") &&
  negb (Ascii.eqb c "010") && negb (Ascii.eqb c "013").

Fixpoint plain (s : string) : bool :=
  match s with
  | EmptyString => true
  | String c s' => plain_char c && plain s'
  end.

(** The text before the next double quote, and the text after that quote. *)
Fixpoint until_quote (t : string) : option (string * string) :=
  match t with
  | EmptyString => None
  | String c t' =>
      if Ascii.eqb c "034" then Some (EmptyString, t')
      else
        match until_quote t' with
        | Some (v, rest) => Some (String c v, rest)
        | None => None
        end
  end.

(** The double-quoted literal at the start of [t] that is free of escape
    sequences: its value and the text that follows it. A text with a
    backslash or a line terminator before the closing quote is not read: it
    is no literal, or a literal of another string than the text between the
    quotes. *)
Definition read_string_literal (t : string) : option (string * string) :=
  match expect dq t with
  | Some t' =>
      match until_quote t' with
      | Some (v, rest) => if plain v then Some (v, rest) else None
      | None => None
      end
  | None => None
  end.

(** One property [  key: "value"] of the object. *)
Definition read_property (key t : string) : option (string * string) :=
  match expect ("  " ++ key ++ ": ") t with
  | Some t' => read_string_literal t'
  | None => None
  end.

(** The statement [const firebaseConfig = { ... };] at the start of [t], laid
    out as the template lays it out: the object it denotes and the text
    after the statement. *)
Definition read_config_object (t : string) : option (FirebaseConfig * string) :=
  t ← expect ("const firebaseConfig = {" ++ nl) t;
  '(k, t) ← read_property "apiKey" t;
  t ← expect ("," ++ nl) t;
  '(a, t) ← read_property "authDomain" t;
  t ← expect ("," ++ nl) t;
  '(p, t) ← read_property "projectId" t;
  t ← expect ("," ++ nl) t;
  '(s, t) ← read_property "storageBucket" t;
  t ← expect ("," ++ nl) t;
  '(m, t) ← read_property "messagingSenderId" t;
  t ← expect ("," ++ nl) t;
  '(i, t) ← read_property "appId" t;
  t ← expect (nl ++ "};") t;
  Some ({| apiKey := k; authDomain := a; projectId := p;
           storageBucket := s; messagingSenderId := m; appId := i |}, t).

(** The script [output] holds, somewhere, the configuration object whose six
    properties are string literals of the six values of [config]. *)
Definition holds_config_object (output : string) (config : FirebaseConfig)
    : Prop :=
  exists before statement after,
    output = before ++ statement /\
    read_config_object statement = Some (config, after).

(** The same, decided by trying every position of the text. *)
Fixpoint suffixes (s : string) : list string :=
  s :: match s with
       | EmptyString => []
       | String _ s' => suffixes s'
       end.

Definition config_eqb (c1 c2 : FirebaseConfig) : bool :=
  String.eqb (apiKey c1) (apiKey c2) &&
  String.eqb (authDomain c1) (authDomain c2) &&
  String.eqb (projectId c1) (projectId c2) &&
  String.eqb (storageBucket c1) (storageBucket c2) &&
  String.eqb (messagingSenderId c1) (messagingSenderId c2) &&
  String.eqb (appId c1) (appId c2).

Definition reads_as (config : FirebaseConfig) (statement : string) : bool :=
  match read_config_object statement with
  | Some (c, _) => config_eqb c config
  | None => false
  end.

Definition config_object_in (output : string) (config : FirebaseConfig)
    : bool :=
  existsb (reads_as config) (suffixes output).

(** Some configuration object stands somewhere in the text. *)
Definition any_config_object (output : string) : bool :=
  existsb
    (fun statement =>
       match read_config_object statement with
       | Some _ => true
       | None => false
       end)
    (suffixes output).

(** Every value of the configuration is free of double quotes, backslashes
    and line terminators. *)
Definition plain_config (config : FirebaseConfig) : bool :=
  forallb plain (FirebaseSwText.config_values config).

End ObjectLiteral.

(** ** The generator as a computation

    [generateFirebaseServiceWorkerContent] takes no argument: what it uses,
    it reads from the global objects [process] and [import.meta.env]. Here
    the two functions of [firebase-sw-config.ts] are written as computations
    over the state of the JavaScript realm they run in, in which reading a
    global, assigning to an environment variable and printing to the console
    are primitive steps. What a call leaves as it was is then a statement
    about the computation. The module declares no variable of its own, so
    the global objects and the console are all that a call could reach. *)

Module Realm.

Import FirebaseSw.

(** What a call can observe and change: the global objects, and what has
    been printed to the console so far. *)
Record realm := {
  realm_globals : globals;
  console : list string
}.

Definition JS (A : Type) : Type := realm -> A * realm.

Definition ret {A : Type} (a : A) : JS A := fun r => (a, r).

Definition bind {A B : Type} (m : JS A) (k : A -> JS B) : JS B :=
  fun r => let (a, r') := m r in k a r'.

Definition result {A : Type} (m : JS A) (r : realm) : A := fst (m r).
Definition after {A : Type} (m : JS A) (r : realm) : realm := snd (m r).

(** The primitive steps. *)

(** [typeof process !== 'undefined'] and the value of [process]. *)
Definition read_process : JS (option process_object) :=
  fun r => (process (realm_globals r), r).

(** [import.meta.env] *)
Definition read_import_meta_env : JS (gmap string string) :=
  fun r => (import_meta_env (realm_globals r), r).

(** [console.warn(line)] *)
Definition console_warn (line : string) : JS unit :=
  fun r => (tt, {| realm_globals := realm_globals r;
                   console := console r ++ [line] |}).

(** [import.meta.env[name] = value] *)
Definition assign_import_meta_env (name value : string) : JS unit :=
  fun r =>
    (tt, {| realm_globals :=
              {| process := process (realm_globals r);
                 import_meta_env :=
                   <[name := value]> (import_meta_env (realm_globals r)) |};
            console := console r |}).

(** [typeof process !== 'undefined' && process.env ? process.env
     : import.meta.env]: [import.meta.env] is read only when [process.env]
    is not there. *)
Definition read_env : JS (gmap string string) :=
  bind read_process (fun p =>
  match p with
  | Some p =>
      match process_env p with
      | Some e => ret e
      | None => read_import_meta_env
      end
  | None => read_import_meta_env
  end).

Definition getFirebaseServiceWorkerConfig : JS FirebaseConfig :=
  bind read_env (fun env =>
  ret {| apiKey := js_or (env !! "VITE_FIREBASE_API_KEY") "";
         authDomain := js_or (env !! "VITE_FIREBASE_AUTH_DOMAIN") "";
         projectId := js_or (env !! "VITE_FIREBASE_PROJECT_ID") "";
         storageBucket := js_or (env !! "VITE_FIREBASE_STORAGE_BUCKET") "";
         messagingSenderId :=
           js_or (env !! "VITE_FIREBASE_MESSAGING_SENDER_ID") "";
         appId := js_or (env !! "VITE_FIREBASE_APP_ID") "" |}).

(** The [console.warn] and [console.log] lines of the template are text of
    the returned string; the call itself prints nothing. *)
Definition generateFirebaseServiceWorkerContent : JS string :=
  bind getFirebaseServiceWorkerConfig (fun config =>
  let hasValidConfig := hasValidConfig config in
  ret (header ++
       (if truthy hasValidConfig then valid_branch config
        else disabled_branch) ++
       initialization_block ++
       fallback_block)).

(** A computation that leaves the realm as it found it. *)
Definition leaves_realm_unchanged {A : Type} (m : JS A) : Prop :=
  forall r, after m r = r.

(** Two realms in which the six variables, each with its default, have the
    same values. *)
Definition same_environment_values (r1 r2 : realm) : Prop :=
  forall name, In name firebase_variables ->
    js_or (env (realm_globals r1) !! name) "" =
    js_or (env (realm_globals r2) !! name) "".

(** Two realms for the examples: a build under Node in which something has
    been printed, and a browser with a further variable. *)
Definition node_realm : realm :=
  {| realm_globals := Samples.build_globals;
     console := [ "vite v5.0.0 building for production..." ] |}.

Definition browser_realm : realm :=
  {| realm_globals := Samples.browser_globals; console := [] |}.

End Realm.

(** * Properties *)

(** ** Strings *)

Module JsStringFacts.

Lemma truthy_true (s : string) : truthy s = true <-> s <> "".
Proof.
  unfold truthy. rewrite negb_true_iff. split.
  - intros H ->. discriminate.
  - intros H. destruct s; [congruence | reflexivity].
Qed.

Lemma truthy_false (s : string) : truthy s = false <-> s = "".
Proof.
  unfold truthy. rewrite negb_false_iff. apply String.eqb_eq.
Qed.

Lemma js_and_truthy (a b : string) :
  truthy (js_and a b) = truthy a && truthy b.
Proof. unfold js_and. destruct (truthy a) eqn:E; [reflexivity | exact E]. Qed.

Lemma js_or_default (v : option string) :
  js_or v "" = match v with Some s => s | None => "" end.
Proof.
  destruct v as [s|]; [|reflexivity]. simpl.
  destruct (truthy s) eqn:E; [reflexivity|].
  symmetry. now apply truthy_false.
Qed.

(** A variable read with the empty default is non-empty iff it is set to a
    non-empty string. *)
Lemma js_or_nonempty (v : option string) :
  js_or v "" <> "" <-> exists s, v = Some s /\ s <> "".
Proof.
  rewrite js_or_default. destruct v as [s|]; split.
  - intros H. now exists s.
  - intros (s' & [= <-] & H). exact H.
  - congruence.
  - intros (s' & [=] & _).
Qed.

Lemma append_nil_l (a : string) : "" ++ a = a.
Proof. reflexivity. Qed.

Lemma append_cons (x : ascii) (a b : string) :
  String x a ++ b = String x (a ++ b).
Proof. reflexivity. Qed.

Lemma append_assoc (a b c : string) : (a ++ b) ++ c = a ++ b ++ c.
Proof.
  induction a as [|x a IH]; [reflexivity|].
  now rewrite !append_cons, IH.
Qed.

Lemma append_nil_r (a : string) : a ++ "" = a.
Proof.
  induction a as [|x a IH]; [reflexivity|].
  now rewrite append_cons, IH.
Qed.

Lemma prefix_spec (p s : string) :
  String.prefix p s = true <-> exists post, s = p ++ post.
Proof.
  revert s. induction p as [|x p IH]; intros [|y s]; simpl.
  - split; [intros _; now exists "" | reflexivity].
  - split; [intros _; now exists (String y s) | reflexivity].
  - split; [discriminate | intros [post H]; discriminate].
  - destruct (ascii_dec x y) as [->|Hxy].
    + rewrite IH. split; intros [post H]; exists post.
      * rewrite append_cons. congruence.
      * rewrite append_cons in H. congruence.
    + split; [discriminate | intros [post H]].
      rewrite append_cons in H. congruence.
Qed.

Lemma includes_nil (needle : string) :
  includes "" needle = String.prefix needle "" || false.
Proof. reflexivity. Qed.

Lemma includes_cons (x : ascii) (s needle : string) :
  includes (String x s) needle =
  String.prefix needle (String x s) || includes s needle.
Proof. reflexivity. Qed.

Lemma includes_spec (s needle : string) :
  includes s needle = true <-> contains s needle.
Proof.
  unfold contains. induction s as [|x s IH].
  - rewrite includes_nil, orb_false_r, prefix_spec. split.
    + intros [post H]. now exists "", post.
    + intros [[|y pre] [post H]]; [now exists post | discriminate].
  - rewrite includes_cons, orb_true_iff, prefix_spec, IH. split.
    + intros [[post H] | (pre & post & H)].
      * now exists "", post.
      * exists (String x pre), post. now rewrite append_cons, H.
    + intros [[|y pre] [post H]].
      * left. now exists post.
      * right. exists pre, post. rewrite append_cons in H. congruence.
Qed.

Lemma not_includes_spec (s needle : string) :
  includes s needle = false <-> ~ contains s needle.
Proof.
  rewrite <- includes_spec. destruct (includes s needle); split; congruence.
Qed.

Lemma contains_refl (s : string) : contains s s.
Proof. exists "", "". now rewrite append_nil_l, append_nil_r. Qed.

Lemma contains_app_l (a b needle : string) :
  contains a needle -> contains (a ++ b) needle.
Proof.
  intros (pre & post & ->). exists pre, (post ++ b).
  now rewrite !append_assoc.
Qed.

Lemma contains_app_r (a b needle : string) :
  contains b needle -> contains (a ++ b) needle.
Proof.
  intros (pre & post & ->). exists (a ++ pre), post.
  now rewrite !append_assoc.
Qed.

Lemma contains_trans (s m needle : string) :
  contains s m -> contains m needle -> contains s needle.
Proof.
  intros (p1 & q1 & ->) H. now apply contains_app_r, contains_app_l.
Qed.

End JsStringFacts.

Import JsStringFacts.

Create HintDb js_string.
#[local] Hint Resolve contains_refl contains_app_l contains_app_r : js_string.

(** ** Reading the configuration object *)

Module ObjectLiteralFacts.

Import FirebaseSw ObjectLiteral.

Lemma expect_app (p rest : string) : expect p (p ++ rest) = Some rest.
Proof.
  induction p as [|c p IH]; [reflexivity|].
  rewrite append_cons. cbn [expect]. now rewrite Ascii.eqb_refl.
Qed.

(** A prefix made of two pieces is met piece by piece. *)
Lemma expect_append (p1 p2 t : string) :
  expect (p1 ++ p2) t =
  match expect p1 t with
  | Some t' => expect p2 t'
  | None => None
  end.
Proof.
  revert t. induction p1 as [|c p1 IH]; intros t; [reflexivity|].
  rewrite append_cons. cbn [expect]. destruct t as [|b t]; [reflexivity|].
  destruct (Ascii.eqb c b); [apply IH | reflexivity].
Qed.

Lemma plain_char_not_quote (c : ascii) :
  plain_char c = true -> Ascii.eqb c "034" = false.
Proof.
  unfold plain_char. rewrite !andb_true_iff, !negb_true_iff. tauto.
Qed.

Lemma until_quote_plain (v rest : string) :
  plain v = true -> until_quote (v ++ dq ++ rest) = Some (v, rest).
Proof.
  induction v as [|c v IH]; intros H.
  - reflexivity.
  - cbn [plain] in H. apply andb_true_iff in H as [Hc Hv].
    rewrite append_cons. cbn [until_quote].
    now rewrite (plain_char_not_quote _ Hc), (IH Hv).
Qed.

Lemma read_string_literal_plain (v rest : string) :
  plain v = true ->
  read_string_literal (dq ++ v ++ dq ++ rest) = Some (v, rest).
Proof.
  intros H. unfold read_string_literal.
  now rewrite expect_app, (until_quote_plain _ _ H), H.
Qed.

Lemma read_property_plain (key v rest : string) :
  plain v = true ->
  read_property key (property key v ++ rest) = Some (v, rest).
Proof.
  intros H. unfold read_property, property.
  rewrite !append_assoc.
  repeat first [ rewrite expect_append | rewrite expect_app ].
  now apply read_string_literal_plain.
Qed.

(** The object literal of a configuration with plain values reads back as
    that configuration. *)
Lemma read_config_object_literal (config : FirebaseConfig) (rest : string) :
  plain_config config = true ->
  read_config_object (firebaseConfig_literal config ++ rest) =
  Some (config, rest).
Proof.
  destruct config as [k a p s m i]. unfold plain_config.
  cbn [FirebaseSwText.config_values forallb apiKey authDomain projectId
         storageBucket messagingSenderId appId].
  rewrite !andb_true_iff.
  intros (Hk & Ha & Hp & Hs & Hm & Hi & _).
  unfold read_config_object, firebaseConfig_literal.
  cbn [apiKey authDomain projectId storageBucket messagingSenderId appId].
  repeat (rewrite ?append_assoc;
          first [ rewrite expect_append
                | rewrite expect_app
                | rewrite read_property_plain by assumption ];
          cbn [mbind option_bind]).
  reflexivity.
Qed.

Lemma suffixes_in (before rest : string) :
  In rest (suffixes (before ++ rest)).
Proof.
  induction before as [|c before IH].
  - rewrite append_nil_l. destruct rest; left; reflexivity.
  - rewrite append_cons. right. exact IH.
Qed.

Lemma config_eqb_refl (config : FirebaseConfig) :
  config_eqb config config = true.
Proof. unfold config_eqb. now rewrite !String.eqb_refl. Qed.

Lemma config_object_in_complete (output : string) (config : FirebaseConfig) :
  holds_config_object output config -> config_object_in output config = true.
Proof.
  intros (before & statement & after & -> & Hread).
  unfold config_object_in. apply existsb_exists.
  exists statement. split; [apply suffixes_in|].
  unfold reads_as. rewrite Hread. apply config_eqb_refl.
Qed.

Lemma any_config_object_complete (output : string) (config : FirebaseConfig) :
  holds_config_object output config -> any_config_object output = true.
Proof.
  intros (before & statement & after & -> & Hread).
  unfold any_config_object. apply existsb_exists.
  exists statement. split; [apply suffixes_in|]. now rewrite Hread.
Qed.

End ObjectLiteralFacts.

(** ** The generator *)

Module FirebaseSwFacts.

Import FirebaseSw ObjectLiteral ObjectLiteralFacts.

Lemma hasValidConfig_truthy (config : FirebaseConfig) :
  truthy (hasValidConfig config) =
  truthy (apiKey config) && truthy (projectId config) &&
  truthy (messagingSenderId config).
Proof. unfold hasValidConfig. now rewrite !js_and_truthy. Qed.

(** Both branches of the conditional lead to the same shape of text. *)
Lemma generate_unfold (g : globals) :
  generateFirebaseServiceWorkerContent g =
  header ++
  (if truthy (hasValidConfig (getFirebaseServiceWorkerConfig g))
   then valid_branch (getFirebaseServiceWorkerConfig g)
   else disabled_branch) ++
  initialization_block ++ fallback_block.
Proof. reflexivity. Qed.

Lemma disabled_output_has_no_import :
  includes disabled_output "import" = false.
Proof. vm_compute. reflexivity. Qed.

(** C1: for every environment, the validity predicate of
    [generateFirebaseServiceWorkerContent] holds iff [apiKey], [projectId]
    and [messagingSenderId], each read with the empty string as default, are
    all non-empty, that is, iff the three corresponding variables are set to
    non-empty strings. The predicate is a function of these three variables
    alone: [authDomain], [storageBucket] and [appId] play no role. *)
Theorem validity_iff_required_fields (g : globals) :
  let config := getFirebaseServiceWorkerConfig g in
  (truthy (hasValidConfig config) = true <->
   apiKey config <> "" /\ projectId config <> "" /\
   messagingSenderId config <> "") /\
  truthy (hasValidConfig config) =
    truthy (js_or (env g !! "VITE_FIREBASE_API_KEY") "") &&
    truthy (js_or (env g !! "VITE_FIREBASE_PROJECT_ID") "") &&
    truthy (js_or (env g !! "VITE_FIREBASE_MESSAGING_SENDER_ID") "") /\
  (truthy (hasValidConfig config) = true <->
   (exists k, env g !! "VITE_FIREBASE_API_KEY" = Some k /\ k <> "") /\
   (exists p, env g !! "VITE_FIREBASE_PROJECT_ID" = Some p /\ p <> "") /\
   (exists m,
      env g !! "VITE_FIREBASE_MESSAGING_SENDER_ID" = Some m /\ m <> "")) /\
  (forall a s i : string,
     truthy (hasValidConfig
               {| apiKey := apiKey config; authDomain := a;
                  projectId := projectId config; storageBucket := s;
                  messagingSenderId := messagingSenderId config;
                  appId := i |}) =
     truthy (hasValidConfig config)).
Proof.
  intros config. split; [|split; [|split]].
  - rewrite hasValidConfig_truthy, !andb_true_iff, !truthy_true. tauto.
  - now rewrite hasValidConfig_truthy.
  - rewrite hasValidConfig_truthy, !andb_true_iff, !truthy_true.
    subst config. cbn [getFirebaseServiceWorkerConfig apiKey projectId
                         messagingSenderId].
    rewrite !js_or_nonempty. tauto.
  - intros a s i. now rewrite !hasValidConfig_truthy.
Qed.

Lemma disabled_output_has_no_object :
  any_config_object disabled_output = false.
Proof. vm_compute. reflexivity. Qed.

(** C2, as stated, fails: with a double quote inside the API key the
    configuration is valid, the two [importScripts] statements are there,
    but no statement of the text is the object whose six properties are
    string literals of the six values. *)
Lemma quoted_value_is_no_literal :
  ~ (forall g : globals,
       let config := getFirebaseServiceWorkerConfig g in
       let output := generateFirebaseServiceWorkerContent g in
       truthy (hasValidConfig config) = true ->
       contains output
         "importScripts('https://www.gstatic.com/firebasejs/10.7.1/firebase-app-compat.js');" /\
       contains output
         "importScripts('https://www.gstatic.com/firebasejs/10.7.1/firebase-messaging-compat.js');" /\
       holds_config_object output config).
Proof.
  intros H.
  destruct (H Scenarios.quoted_key_globals) as (_ & _ & Hobject).
  - vm_compute. reflexivity.
  - apply config_object_in_complete in Hobject.
    vm_compute in Hobject. discriminate Hobject.
Qed.

(** C2, amended: the output has two branches, selected by the validity
    predicate. When the configuration is valid, the text is the header, the
    two [importScripts] statements, the statement
    [const firebaseConfig = { ... };] in which each of the six values stands,
    as it is, between two double quotes, and the common end; that statement
    is the object whose properties are string literals of the six values
    whenever no value holds a double quote, a backslash or a line
    terminator. Otherwise the text is the header, the disabled stand-in (the
    warning and [const firebaseConfig = null;]) and the common end; the word
    [import] occurs nowhere in it and it holds no configuration object. *)
Theorem output_branches (g : globals) :
  let config := getFirebaseServiceWorkerConfig g in
  let output := generateFirebaseServiceWorkerContent g in
  let quote := String "034" "" in
  let line := String "010" "" in
  let import_app_statement :=
    "importScripts('https://www.gstatic.com/firebasejs/10.7.1/firebase-app-compat.js');" in
  let import_messaging_statement :=
    "importScripts('https://www.gstatic.com/firebasejs/10.7.1/firebase-messaging-compat.js');" in
  let object :=
    "const firebaseConfig = {" ++ line ++
    "  apiKey: " ++ quote ++ apiKey config ++ quote ++ "," ++ line ++
    "  authDomain: " ++ quote ++ authDomain config ++ quote ++ "," ++ line ++
    "  projectId: " ++ quote ++ projectId config ++ quote ++ "," ++ line ++
    "  storageBucket: " ++ quote ++ storageBucket config ++ quote ++ "," ++
      line ++
    "  messagingSenderId: " ++ quote ++ messagingSenderId config ++ quote ++
      "," ++ line ++
    "  appId: " ++ quote ++ appId config ++ quote ++ line ++
    "};" in
  let warning :=
    "console.warn('🚧 Firebase configuration not available - FCM disabled');" in
  let placeholder := "const firebaseConfig = null;" in
  if truthy (hasValidConfig config) then
    output =
      header ++ line ++
      "// Import Firebase scripts for service worker" ++ line ++
      import_app_statement ++ line ++
      import_messaging_statement ++ line ++
      line ++
      "// Firebase configuration" ++ line ++
      object ++
      initialization_block ++ fallback_block /\
    contains output import_app_statement /\
    contains output import_messaging_statement /\
    contains output object /\
    (plain_config config = true -> holds_config_object output config)
  else
    output =
      header ++ line ++
      "// Firebase configuration not available - FCM disabled in development" ++
      line ++
      warning ++ line ++
      placeholder ++
      initialization_block ++ fallback_block /\
    contains output warning /\
    contains output placeholder /\
    ~ contains output "import" /\
    (forall c, ~ holds_config_object output c).
Proof.
  intros config output quote line import_app_statement
    import_messaging_statement object warning placeholder.
  subst output. rewrite generate_unfold. fold config.
  destruct (truthy (hasValidConfig config)).
  - assert (Hline : forall rest, valid_branch config ++ rest =
              line ++
              "// Import Firebase scripts for service worker" ++ line ++
              import_app_statement ++ line ++
              import_messaging_statement ++ line ++
              line ++
              "// Firebase configuration" ++ line ++
              object ++ rest).
    { intros rest. subst object.
      unfold valid_branch, firebaseConfig_literal, property.
      rewrite !append_assoc. reflexivity. }
    assert (Hobject : firebaseConfig_literal config = object).
    { subst object. unfold firebaseConfig_literal, property.
      rewrite !append_assoc. reflexivity. }
    rewrite Hline. split; [reflexivity|].
    split; [|split; [|split]].
    + exists (header ++ line ++
              "// Import Firebase scripts for service worker" ++ line).
      eexists. rewrite !append_assoc. reflexivity.
    + exists (header ++ line ++
              "// Import Firebase scripts for service worker" ++ line ++
              import_app_statement ++ line).
      eexists. rewrite !append_assoc. reflexivity.
    + exists (header ++ line ++
              "// Import Firebase scripts for service worker" ++ line ++
              import_app_statement ++ line ++
              import_messaging_statement ++ line ++ line ++
              "// Firebase configuration" ++ line).
      exists (initialization_block ++ fallback_block).
      rewrite !append_assoc. reflexivity.
    + intros Hplain.
      exists (header ++ line ++
              "// Import Firebase scripts for service worker" ++ line ++
              import_app_statement ++ line ++
              import_messaging_statement ++ line ++ line ++
              "// Firebase configuration" ++ line).
      exists (object ++ initialization_block ++ fallback_block).
      exists (initialization_block ++ fallback_block).
      split; [rewrite !append_assoc; reflexivity|].
      rewrite <- Hobject. now apply read_config_object_literal.
  - assert (Hline : forall rest, disabled_branch ++ rest =
              line ++
              "// Firebase configuration not available - FCM disabled in development" ++
              line ++ warning ++ line ++ placeholder ++ rest).
    { intros rest. unfold disabled_branch. rewrite !append_assoc.
      reflexivity. }
    split; [now rewrite Hline|].
    split; [|split; [|split]].
    + rewrite Hline.
      exists (header ++ line ++
              "// Firebase configuration not available - FCM disabled in development" ++
              line).
      exists (line ++ placeholder ++ initialization_block ++ fallback_block).
      rewrite !append_assoc. reflexivity.
    + rewrite Hline.
      exists (header ++ line ++
              "// Firebase configuration not available - FCM disabled in development" ++
              line ++ warning ++ line).
      exists (initialization_block ++ fallback_block).
      rewrite !append_assoc. reflexivity.
    + apply not_includes_spec, disabled_output_has_no_import.
    + intros c Hc. apply any_config_object_complete in Hc.
      fold disabled_output in Hc.
      rewrite disabled_output_has_no_object in Hc. discriminate Hc.
Qed.

Lemma output_branches_witness :
  plain_config (getFirebaseServiceWorkerConfig Samples.build_globals) = true /\
  holds_config_object
    (generateFirebaseServiceWorkerContent Samples.build_globals)
    (getFirebaseServiceWorkerConfig Samples.build_globals).
Proof.
  assert (Hplain :
            plain_config (getFirebaseServiceWorkerConfig Samples.build_globals)
            = true) by (vm_compute; reflexivity).
  assert (Hvalid :
            truthy (hasValidConfig
                      (getFirebaseServiceWorkerConfig Samples.build_globals))
            = true) by (vm_compute; reflexivity).
  split; [exact Hplain|].
  pose proof (output_branches Samples.build_globals) as H.
  cbv zeta in H. rewrite Hvalid in H.
  exact (proj2 (proj2 (proj2 (proj2 H))) Hplain).
Defined.

(** The text depends on the environment through the six variables only,
    each taken with its default: two environments that agree on them give
    the same text, byte for byte. *)
Lemma same_values_same_text (g1 g2 : globals) :
  (forall name, In name firebase_variables ->
     js_or (env g1 !! name) "" = js_or (env g2 !! name) "") ->
  generateFirebaseServiceWorkerContent g1 =
  generateFirebaseServiceWorkerContent g2.
Proof.
  intros H.
  assert (getFirebaseServiceWorkerConfig g1 =
          getFirebaseServiceWorkerConfig g2) as Hc.
  { unfold getFirebaseServiceWorkerConfig.
    f_equal; apply H; simpl; tauto. }
  rewrite !generate_unfold, Hc. reflexivity.
Qed.


End FirebaseSwFacts.

(** ** The generator as a computation: what a call does to the realm *)

Module RealmFacts.

Import FirebaseSw Realm.

#[local] Open Scope list_scope.

(** The environment is read, and nothing else is done. *)
Lemma read_env_runs (r : realm) :
  read_env r = (env (realm_globals r), r).
Proof.
  unfold read_env, bind, read_process, read_import_meta_env, ret, env.
  destruct (process (realm_globals r)) as [[[e|]]|]; reflexivity.
Qed.

Lemma getFirebaseServiceWorkerConfig_runs (r : realm) :
  Realm.getFirebaseServiceWorkerConfig r =
  (FirebaseSw.getFirebaseServiceWorkerConfig (realm_globals r), r).
Proof.
  unfold Realm.getFirebaseServiceWorkerConfig, bind.
  rewrite read_env_runs. reflexivity.
Qed.

Lemma generate_runs (r : realm) :
  Realm.generateFirebaseServiceWorkerContent r =
  (FirebaseSw.generateFirebaseServiceWorkerContent (realm_globals r), r).
Proof.
  unfold Realm.generateFirebaseServiceWorkerContent, bind.
  rewrite getFirebaseServiceWorkerConfig_runs. reflexivity.
Qed.

(** The primitive steps that write do change the realm: leaving it
    unchanged is not a property of every computation. *)
Lemma console_warn_changes_realm (line : string) :
  ~ leaves_realm_unchanged (console_warn line).
Proof.
  intros H.
  specialize (H {| realm_globals := Samples.browser_globals; console := [] |}).
  apply (f_equal console) in H. discriminate H.
Qed.

Lemma assignment_changes_realm :
  ~ leaves_realm_unchanged
      (assign_import_meta_env "VITE_FIREBASE_API_KEY" "other").
Proof.
  intros H. specialize (H browser_realm).
  apply (f_equal (fun r =>
           import_meta_env (realm_globals r) !! "VITE_FIREBASE_API_KEY")) in H.
  vm_compute in H. discriminate H.
Qed.

(** A computation whose result depends on what was printed before is not
    determined by the six variables. *)
Lemma same_values_other_results :
  same_environment_values node_realm browser_realm /\
  result (fun r => (List.length (console r), r)) node_realm <>
  result (fun r => (List.length (console r), r)) browser_realm.
Proof.
  split; [|discriminate].
  intros name Hin. simpl in Hin.
  repeat (destruct Hin as [<- | Hin]; [vm_compute; reflexivity|]).
  destruct Hin.
Qed.

(** C8: a call of [generateFirebaseServiceWorkerContent] returns the text
    computed from the global objects and leaves the realm as it found it:
    the global objects are not assigned to and nothing is printed. The text
    is the same, byte for byte, in any two realms in which the six variables,
    each with its default, have the same values, whatever else differs
    between them (other variables, where the environment comes from, what
    was printed before); and a second call, made after the first, returns
    the same text again. *)
Theorem generator_pure_and_deterministic :
  (forall r : realm,
     Realm.generateFirebaseServiceWorkerContent r =
     (FirebaseSw.generateFirebaseServiceWorkerContent (realm_globals r), r)) /\
  (forall r : realm,
     realm_globals (after Realm.generateFirebaseServiceWorkerContent r) =
       realm_globals r /\
     console (after Realm.generateFirebaseServiceWorkerContent r) =
       console r) /\
  (forall r1 r2 : realm,
     (forall name, In name firebase_variables ->
        js_or (env (realm_globals r1) !! name) "" =
        js_or (env (realm_globals r2) !! name) "") ->
     result Realm.generateFirebaseServiceWorkerContent r1 =
     result Realm.generateFirebaseServiceWorkerContent r2) /\
  (forall r : realm,
     let (first, r1) := Realm.generateFirebaseServiceWorkerContent r in
     let (second, r2) := Realm.generateFirebaseServiceWorkerContent r1 in
     second = first /\ r2 = r).
Proof.
  split; [exact generate_runs|]. split; [|split].
  - intros r. unfold after. now rewrite generate_runs.
  - intros r1 r2 H. unfold result. rewrite !generate_runs.
    cbn [fst]. now apply FirebaseSwFacts.same_values_same_text.
  - intros r. rewrite generate_runs, generate_runs. split; reflexivity.
Qed.

Lemma generator_pure_and_deterministic_witness :
  same_environment_values node_realm browser_realm /\
  result Realm.generateFirebaseServiceWorkerContent node_realm =
  result Realm.generateFirebaseServiceWorkerContent browser_realm.
Proof.
  assert (H : same_environment_values node_realm browser_realm).
  { intros name Hin. simpl in Hin.
    repeat (destruct Hin as [<- | Hin]; [vm_compute; reflexivity|]).
    destruct Hin. }
  split; [exact H|].
  exact (proj1 (proj2 (proj2 generator_pure_and_deterministic))
           node_realm browser_realm H).
Defined.

End RealmFacts.

(** ** The background-message handler *)

Module ServiceWorkerFacts.

Import ServiceWorker.

(** The handler asks for the notification built from the payload and, when
    that call throws, for the fixed fallback notification. *)
Lemma shown_onBackgroundMessage throws (now : Z) (payload : MessagePayload) :
  shown (onBackgroundMessage throws now payload) =
  (notificationTitle payload, notificationOptions now payload) ::
  (if throws (notificationTitle payload) (notificationOptions now payload)
   then [("MedTrack Reminder", fallbackOptions)] else []).
Proof.
  unfold onBackgroundMessage. simpl.
  destruct (throws _ _); reflexivity.
Qed.

(** C5, as stated, fails: a message whose notification carries an icon is
    shown with that icon, not with ['/pill-icon.svg']. *)
Lemma icon_follows_payload :
  ~ (forall throws now payload t o,
       In (t, o) (shown (onBackgroundMessage throws now payload)) ->
       opt_icon o = "/pill-icon.svg" /\ opt_badge o = "/pill-icon.svg").
Proof.
  intros H.
  destruct (H Samples.never_throws 0%Z Samples.payload_with_icon
              "Aspirin" (notificationOptions 0 Samples.payload_with_icon))
    as [Hicon _]; [left; reflexivity | discriminate Hicon].
Qed.

(** C5, amended: for every message the badge of every notification shown is
    ['/pill-icon.svg']; the icon of the notification built from the payload
    is [payload.notification.icon] when that is present and not empty, and
    ['/pill-icon.svg'] otherwise; the fallback notification has the fixed
    icon. *)
Theorem notification_icon_and_badge throws (now : Z)
    (payload : MessagePayload) :
  Forall (fun n => opt_badge (snd n) = "/pill-icon.svg")
    (shown (onBackgroundMessage throws now payload)) /\
  exists fallback,
    shown (onBackgroundMessage throws now payload) =
      (notificationTitle payload, notificationOptions now payload) ::
      fallback /\
    opt_icon (notificationOptions now payload) =
      match notification payload ≫= icon with
      | Some i => if (i =? "")%string then "/pill-icon.svg" else i
      | None => "/pill-icon.svg"
      end /\
    Forall (fun n => opt_icon (snd n) = "/pill-icon.svg") fallback.
Proof.
  rewrite shown_onBackgroundMessage. split.
  - constructor; [reflexivity|].
    destruct (throws _ _); repeat constructor.
  - eexists. split; [reflexivity|]. split.
    + simpl. unfold js_or, truthy.
      destruct (notification payload ≫= icon) as [i|]; [|reflexivity].
      destruct (i =? "")%string; reflexivity.
    + destruct (throws _ _); repeat constructor.
Qed.

(** C6, as stated, fails: a medication identifier that is present but empty
    gives the generic tag, not ['medication_']. *)
Lemma empty_medication_id_gets_generic_tag :
  ~ (forall throws now payload medicationId t o,
       data payload ≫= (.!! "medicationId") = Some medicationId ->
       hd_error (shown (onBackgroundMessage throws now payload)) =
         Some (t, o) ->
       opt_tag o = Some ("medication_" ++ medicationId)).
Proof.
  intros H.
  specialize (H Samples.never_throws 0%Z Samples.payload_empty_medication ""
                _ _ eq_refl eq_refl).
  vm_compute in H. discriminate H.
Qed.

(** C6, amended: the notification built from the payload is the first one
    shown; its tag is ['medication_'] followed by
    [payload.data.medicationId] when that is present and not empty (so
    ['medication_42'] for ["42"]), and ['medtrack-fcm'] when it is absent or
    empty. *)
Theorem notification_tag_from_medication throws (now : Z)
    (payload : MessagePayload) :
  hd_error (shown (onBackgroundMessage throws now payload)) =
    Some (notificationTitle payload, notificationOptions now payload) /\
  (forall medicationId,
     data payload ≫= (.!! "medicationId") = Some medicationId ->
     medicationId <> "" ->
     opt_tag (notificationOptions now payload) =
       Some ("medication_" ++ medicationId)) /\
  (data payload ≫= (.!! "medicationId") = Some "42" ->
   opt_tag (notificationOptions now payload) = Some "medication_42") /\
  (data payload ≫= (.!! "medicationId") = None \/
   data payload ≫= (.!! "medicationId") = Some "" ->
   opt_tag (notificationOptions now payload) = Some "medtrack-fcm").
Proof.
  rewrite shown_onBackgroundMessage. split; [reflexivity|].
  unfold notificationOptions, notification_tag. simpl.
  split; [|split].
  - intros medicationId -> Hne.
    apply truthy_true in Hne. now rewrite Hne.
  - intros ->. reflexivity.
  - intros [-> | ->]; reflexivity.
Qed.

Lemma notification_tag_from_medication_witness :
  opt_tag (notificationOptions 0 Samples.payload_medication_42) =
    Some "medication_42" /\
  opt_tag (notificationOptions 0 Samples.payload_empty_medication) =
    Some "medtrack-fcm".
Proof.
  split.
  - apply (notification_tag_from_medication Samples.never_throws 0
             Samples.payload_medication_42).
    reflexivity.
  - apply (notification_tag_from_medication Samples.never_throws 0
             Samples.payload_empty_medication).
    right. reflexivity.
Defined.

End ServiceWorkerFacts.

(** ** The bootstrap *)

Module AppFacts.

Import App.

#[local] Open Scope list_scope.

(** *** Tactics *)

Ltac unfold_block :=
  unfold events, handleFocus, backend_sync_block, migration_block,
    diagnostic_block, bind, try_catch, call, read, console_log,
    console_warn, console_error, emit, ret.

Ltac case_outcome :=
  match goal with
  | |- context [match ?x with Resolved _ => _ | Rejected _ => _ end] =>
      let E := fresh "E" in destruct x as [?|?] eqn:E
  | |- context [if ?b then _ else _] =>
      let E := fresh "E" in destruct b eqn:E
  end; cbn [fst snd app].

Ltac in_list := simpl; solve [repeat (first [left; reflexivity | right])].

Ltac not_in H := simpl in H; intuition (try discriminate; try congruence).

Ltac invert_in H :=
  simpl in H;
  repeat match type of H with
         | _ \/ _ => destruct H as [H | H]
         end;
  try discriminate H; try contradiction;
  try (inversion H; subst; clear H).

Ltac run_block := unfold_block; cbn [fst snd app]; repeat case_outcome.

Section Bootstrap.

Context {Reminder Medication UserProfile Error : Type}.

Abbreviation event := (@event Reminder Medication UserProfile Error).
Abbreviation world := (@world Reminder Medication UserProfile Error).
Abbreviation browser := (@browser Reminder Medication UserProfile Error).

Variable w : world.

(** *** The monad *)

Lemma bind_events {A B : Type} (m : M A) (k : A -> M B) (h : list event)
    (a : A) :
  snd (m h) = Resolved a ->
  events (bind m k) h = events m h ++ events (k a) (h ++ events m h).
Proof.
  unfold events, bind. destruct (m h) as [t r]. simpl. intros ->.
  now destruct (k a (h ++ t)).
Qed.

(** *** The traces of the three blocks *)

(** The backend-sync block never throws: its [catch] only logs. *)
Lemma backend_sync_block_returns (rs : list Reminder) (ms : list Medication)
    (h : list event) :
  snd (backend_sync_block w rs ms h) = Resolved tt.
Proof. run_block; try reflexivity; now destruct u. Qed.

Lemma backend_sync_block_events (rs : list Reminder) (ms : list Medication)
    (h : list event) :
  let t := events (backend_sync_block w rs ms) h in
  (exists error,
     t = [ ConsoleLog "🔄 Initializing backend sync service...";
           BackendInitialize (Rejected error);
           ConsoleError "❌ Backend sync initialization failed:" error;
           ConsoleLog "📱 Falling back to client-side notifications only" ]) \/
  (rs = [] /\ ms = [] /\
   t = [ ConsoleLog "🔄 Initializing backend sync service...";
         BackendInitialize (Resolved tt);
         ConsoleLog "✅ Backend sync service initialized successfully" ]) \/
  ((rs <> [] \/ ms <> []) /\
   exists state r tail,
     t = [ ConsoleLog "🔄 Initializing backend sync service...";
           BackendInitialize (Resolved tt);
           ConsoleLog "✅ Backend sync service initialized successfully";
           ConsoleLog "📤 Syncing existing data to backend...";
           GetState state;
           SyncUserDataToBackend rs ms (userProfile state) r ] ++ tail /\
     match r with
     | Resolved true =>
         tail = [ ConsoleLog
                    "✅ Initial backend sync completed - iOS PWA notifications enabled" ]
     | Resolved false =>
         tail = [ ConsoleWarn
                    "⚠️ Initial backend sync failed - using client-side only" ]
     | Rejected error =>
         tail = [ ConsoleError "❌ Backend sync initialization failed:" error;
                  ConsoleLog "📱 Falling back to client-side notifications only" ]
     end).
Proof.
  intros t. subst t. run_block.
  all: repeat match goal with u : unit |- _ => destruct u end.
  all: try (left; eexists; reflexivity).
  all: right.
  all: destruct rs, ms; simpl in *; try discriminate.
  all: try (left; repeat split; reflexivity).
  all: right; (split; [first [left; discriminate | right; discriminate]|]).
  all: do 3 eexists; (split; [reflexivity|]); reflexivity.
Qed.

(** The migration block never throws either. *)
Lemma migration_block_returns (rs : list Reminder) (ms : list Medication)
    (h : list event) :
  snd (migration_block w rs ms h) = Resolved tt.
Proof. run_block; try reflexivity; now destruct u. Qed.

Lemma migration_block_events (rs : list Reminder) (ms : list Medication)
    (h : list event) :
  let t := events (migration_block w rs ms) h in
  ((rs = [] \/ ms = []) /\ t = []) \/
  (rs <> [] /\ ms <> [] /\
   (t = [ ConsoleLog "🔄 Starting iOS PWA reminder migration...";
          MigrateExistingReminders rs ms (Resolved tt);
          ConsoleLog "✅ iOS PWA reminder migration completed" ] \/
    exists error,
      t = [ ConsoleLog "🔄 Starting iOS PWA reminder migration...";
            MigrateExistingReminders rs ms (Rejected error);
            ConsoleError "❌ iOS PWA reminder migration failed:" error ])).
Proof.
  intros t. subst t. run_block.
  all: repeat match goal with u : unit |- _ => destruct u end.
  all: destruct rs, ms; simpl in *; try discriminate.
  all: try (left; split; [tauto | reflexivity]).
  all: right; (split; [discriminate|]); (split; [discriminate|]).
  all: first [left; reflexivity | right; eexists; reflexivity].
Qed.

(** The six ways the diagnostic block can go. *)
Lemma diagnostic_block_events (h : list event) :
  let t := events (diagnostic_block w) h in
  let log_results := ConsoleLogDiagnostic "📊 iOS PWA Notification Diagnostic Results:" in
  let log_ios :=
    ConsoleLog "🍎 iOS PWA detected - implementing missed dose recovery system" in
  let failed := ConsoleError "❌ Failed to run iOS PWA diagnostic:" in
  (exists error r,
     t = [ DiagnoseIOSPWANotificationIssues (Rejected error);
           failed error; CheckMissedNotifications r ]) \/
  (exists d,
     includes (coreIssue d) "iOS Safari" = false /\
     (t = [ DiagnoseIOSPWANotificationIssues (Resolved d); log_results d;
            CheckMissedNotifications (Resolved tt) ] \/
      exists error r,
        t = [ DiagnoseIOSPWANotificationIssues (Resolved d); log_results d;
              CheckMissedNotifications (Rejected error);
              failed error; CheckMissedNotifications r ])) \/
  (exists d,
     includes (coreIssue d) "iOS Safari" = true /\
     (t = [ DiagnoseIOSPWANotificationIssues (Resolved d); log_results d;
            log_ios; ImplementMissedDoseRecovery (Resolved tt);
            CheckMissedNotifications (Resolved tt) ] \/
      (exists error r,
         t = [ DiagnoseIOSPWANotificationIssues (Resolved d); log_results d;
               log_ios; ImplementMissedDoseRecovery (Resolved tt);
               CheckMissedNotifications (Rejected error);
               failed error; CheckMissedNotifications r ]) \/
      (exists error r,
         t = [ DiagnoseIOSPWANotificationIssues (Resolved d); log_results d;
               log_ios; ImplementMissedDoseRecovery (Rejected error);
               failed error; CheckMissedNotifications r ]))).
Proof.
  intros t log_results log_ios failed. subst t log_results log_ios failed.
  run_block.
  all: repeat match goal with u : unit |- _ => destruct u end.
  all: try (left; do 2 eexists; reflexivity).
  all: right.
  all: first
    [ left; eexists; split; [eassumption|];
      first [ left; reflexivity | right; do 2 eexists; reflexivity ]
    | right; eexists; split; [eassumption|];
      first [ left; reflexivity
            | right; left; do 2 eexists; reflexivity
            | right; right; do 2 eexists; reflexivity ] ].
Qed.

(** The trace of [initializeApp] is the trace of its steps, one after the
    other: none of the first two blocks ends the run. *)
Lemma initializeApp_events (h : list event) :
  exists state h_sync h_migration h_diagnostic,
    events (initializeApp w) h =
      [ ConsoleLog "App loaded, initializing iOS PWA notification system..."; GetState state ] ++
      events (backend_sync_block w (reminders state) (medications state))
        h_sync ++
      events (migration_block w (reminders state) (medications state))
        h_migration ++
      [ ConsoleLog "Running iOS PWA notification diagnostic and recovery..." ] ++
      events (diagnostic_block w) h_diagnostic.
Proof.
  unfold initializeApp.
  rewrite (bind_events _ _ _ tt) by reflexivity.
  rewrite (bind_events _ _ _ (getState w (h ++ events (console_log _) h)))
    by reflexivity.
  rewrite (bind_events _ _ _ tt) by apply backend_sync_block_returns.
  rewrite (bind_events _ _ _ tt) by apply migration_block_returns.
  rewrite (bind_events _ _ _ tt) by reflexivity.
  do 4 eexists. reflexivity.
Qed.

(** Only the first block calls [backendSyncService]. *)
Lemma migration_block_no_backend_call (rs : list Reminder)
    (ms : list Medication) (h : list event) :
  Forall (fun e => backend_call e = false) (events (migration_block w rs ms) h).
Proof.
  destruct (migration_block_events rs ms h)
    as [(_ & ->) | (_ & _ & [-> | (e & ->)])]; repeat constructor.
Qed.

Lemma diagnostic_block_no_backend_call (h : list event) :
  Forall (fun e => backend_call e = false) (events (diagnostic_block w) h).
Proof.
  destruct (diagnostic_block_events h)
    as [(e1 & r1 & ->) |
        [(d & _ & [-> | (e1 & r1 & ->)]) |
         (d & _ & [-> | [(e1 & r1 & ->) | (e1 & r1 & ->)]])]];
    repeat constructor.
Qed.

(** When [initialize()] rejects, the first block only logs the failure. *)
Lemma backend_sync_block_rejected (rs : list Reminder) (ms : list Medication)
    (h : list event) (error : Error) :
  In (BackendInitialize (Rejected error))
     (events (backend_sync_block w rs ms) h) ->
  events (backend_sync_block w rs ms) h =
    [ ConsoleLog "🔄 Initializing backend sync service...";
      BackendInitialize (Rejected error);
      ConsoleError "❌ Backend sync initialization failed:" error;
      ConsoleLog "📱 Falling back to client-side notifications only" ].
Proof.
  destruct (backend_sync_block_events rs ms h)
    as [(e & ->) | [(_ & _ & ->) | (_ & s & r & tail & -> & Htail)]];
    [ | | destruct r as [[|]|e]; subst tail ].
  all: intros Hin; simpl in Hin.
  all: repeat match type of Hin with
              | _ \/ _ => destruct Hin as [Hin | Hin]
              end; try discriminate Hin; try contradiction.
  now injection Hin as ->.
Qed.

(** A call of [backendSyncService] in a run of the body is a call of its
    first block. *)
Lemma backend_call_in_sync_block (state : StoreState)
    (h_sync h_migration h_diagnostic : list event) (e : event) :
  backend_call e = true ->
  In e ([ ConsoleLog "App loaded, initializing iOS PWA notification system...";
          GetState state ] ++
        events (backend_sync_block w (reminders state) (medications state))
          h_sync ++
        events (migration_block w (reminders state) (medications state))
          h_migration ++
        [ ConsoleLog "Running iOS PWA notification diagnostic and recovery..." ] ++
        events (diagnostic_block w) h_diagnostic) ->
  In e (events (backend_sync_block w (reminders state) (medications state))
          h_sync).
Proof.
  intros He Hin.
  pose proof (migration_block_no_backend_call (reminders state)
                (medications state) h_migration) as Hm.
  pose proof (diagnostic_block_no_backend_call h_diagnostic) as Hd.
  rewrite List.Forall_forall in Hm, Hd.
  rewrite !in_app_iff in Hin.
  destruct Hin as [Hin | [Hin | [Hin | [Hin | Hin]]]]; [| assumption | | |].
  - simpl in Hin. destruct Hin as [<- | [<- | []]]; discriminate He.
  - apply Hm in Hin. congruence.
  - simpl in Hin. destruct Hin as [<- | []]. discriminate He.
  - apply Hd in Hin. congruence.
Qed.

(** What follows a rejection of [initialize()] in a run of the body. *)
Lemma initializeApp_after_rejection (h : list event) (error : Error) :
  In (BackendInitialize (Rejected error)) (events (initializeApp w) h) ->
  exists state after,
    events (initializeApp w) h =
      [ ConsoleLog "App loaded, initializing iOS PWA notification system...";
        GetState state;
        ConsoleLog "🔄 Initializing backend sync service...";
        BackendInitialize (Rejected error);
        ConsoleError "❌ Backend sync initialization failed:" error;
        ConsoleLog "📱 Falling back to client-side notifications only" ] ++ after /\
    (reminders state <> [] -> medications state <> [] ->
     exists r,
       In (MigrateExistingReminders (reminders state) (medications state) r)
          after) /\
    (exists r, In (DiagnoseIOSPWANotificationIssues r) after) /\
    (exists r, In (CheckMissedNotifications r) after) /\
    (forall rs ms profile r,
       ~ In (SyncUserDataToBackend rs ms profile r)
            (events (initializeApp w) h)).
Proof.
  destruct (initializeApp_events h)
    as (state & h_sync & h_migration & h_diagnostic & Ht).
  intros Hin. rewrite Ht in Hin.
  pose proof Hin as Hsync.
  apply backend_call_in_sync_block in Hsync; [|reflexivity].
  apply backend_sync_block_rejected in Hsync.
  exists state.
  exists (events (migration_block w (reminders state) (medications state))
            h_migration ++
          [ ConsoleLog "Running iOS PWA notification diagnostic and recovery..." ] ++
          events (diagnostic_block w) h_diagnostic).
  split; [rewrite Ht, Hsync; reflexivity|].
  split; [|split; [|split]].
  - intros Hrs Hms.
    destruct (migration_block_events (reminders state) (medications state)
                h_migration)
      as [([? | ?] & _) | (_ & _ & [-> | (e & ->)])];
      [contradiction | contradiction | |]; eexists; in_list.
  - destruct (diagnostic_block_events h_diagnostic)
      as [(e1 & r1 & ->) |
          [(d & _ & [-> | (e1 & r1 & ->)]) |
           (d & _ & [-> | [(e1 & r1 & ->) | (e1 & r1 & ->)]])]];
      eexists; apply in_or_app; right; in_list.
  - destruct (diagnostic_block_events h_diagnostic)
      as [(e1 & r1 & ->) |
          [(d & _ & [-> | (e1 & r1 & ->)]) |
           (d & _ & [-> | [(e1 & r1 & ->) | (e1 & r1 & ->)]])]];
      eexists; apply in_or_app; right; in_list.
  - intros rs ms profile r H. rewrite Ht in H.
    apply backend_call_in_sync_block in H; [|reflexivity].
    rewrite Hsync in H. not_in H.
Qed.

(** The calls of the diagnostic step are made by the last block only. *)
Lemma backend_sync_block_no_diagnostic_call (rs : list Reminder)
    (ms : list Medication) (h : list event) :
  Forall (fun e => diagnostic_call e = false)
    (events (backend_sync_block w rs ms) h).
Proof.
  destruct (backend_sync_block_events rs ms h)
    as [(e & ->) | [(_ & _ & ->) | (_ & s & r & tail & -> & Htail)]];
    [ | | destruct r as [[|]|e]; subst tail ]; repeat constructor.
Qed.

Lemma migration_block_no_diagnostic_call (rs : list Reminder)
    (ms : list Medication) (h : list event) :
  Forall (fun e => diagnostic_call e = false)
    (events (migration_block w rs ms) h).
Proof.
  destruct (migration_block_events rs ms h)
    as [(_ & ->) | (_ & _ & [-> | (e & ->)])]; repeat constructor.
Qed.

(** Every run of the body reaches the diagnostic step. *)
Lemma initializeApp_reaches_diagnostic (h : list event) :
  exists before h_diagnostic,
    events (initializeApp w) h =
      before ++
      [ ConsoleLog "Running iOS PWA notification diagnostic and recovery..." ] ++
      events (diagnostic_block w) h_diagnostic /\
    Forall (fun e => diagnostic_call e = false) before.
Proof.
  destruct (initializeApp_events h)
    as (state & h_sync & h_migration & h_diagnostic & ->).
  exists ([ ConsoleLog "App loaded, initializing iOS PWA notification system...";
            GetState state ] ++
          events (backend_sync_block w (reminders state) (medications state))
            h_sync ++
          events (migration_block w (reminders state) (medications state))
            h_migration), h_diagnostic.
  split.
  - rewrite <- !app_assoc. reflexivity.
  - apply Forall_app_2; [repeat constructor|]. apply Forall_app_2.
    + apply backend_sync_block_no_diagnostic_call.
    + apply migration_block_no_diagnostic_call.
Qed.

(** *** The browser *)

Lemma handleFocus_events (h : list event) :
  exists r,
    events (handleFocus w) h =
      [ ConsoleLog "Window gained focus, checking for missed notifications";
        CheckMissedNotifications r ].
Proof. unfold_block. cbn [fst snd app]. eexists. reflexivity. Qed.

Lemma history_invoke (cb : callback) (b : browser) :
  history (invoke w cb b) = history b ++ events (run_callback w cb) (history b).
Proof. reflexivity. Qed.

Lemma history_dispatch (ls : list (string * callback)) (b : browser) :
  exists t,
    history (fold_left (fun b l => invoke w (snd l) b) ls b) = history b ++ t.
Proof.
  revert b. induction ls as [|l ls IH]; intros b; simpl.
  - exists []. now rewrite app_nil_r.
  - destruct (IH (invoke w (snd l) b)) as [t ->].
    rewrite history_invoke, <- app_assoc. eauto.
Qed.

(** The history only grows. *)
Lemma history_step (b : browser) (a : action) :
  exists t, history (step w b a) = history b ++ t.
Proof.
  destruct a as [ms | id | |]; simpl.
  - exists []. now rewrite app_nil_r.
  - unfold fire. destruct (find _ _) as [t|];
      [destruct (_ <=? _)%nat|]; try (exists []; now rewrite app_nil_r).
    rewrite history_invoke. simpl. eauto.
  - apply history_dispatch.
  - unfold unmount. destruct (cleanup b) as [timer|]; simpl.
    + rewrite <- app_assoc. eauto.
    + exists []. now rewrite app_nil_r.
Qed.

Lemma history_run (actions : list action) (b : browser) :
  exists t, history (run w actions b) = history b ++ t.
Proof.
  revert b. induction actions as [|a actions IH]; intros b; simpl.
  - exists []. now rewrite app_nil_r.
  - destruct (IH (step w b a)) as [t ->].
    destruct (history_step b a) as [t' ->].
    rewrite <- app_assoc. eauto.
Qed.

Lemma run_app (actions1 actions2 : list action) (b : browser) :
  run w (actions1 ++ actions2) b = run w actions2 (run w actions1 b).
Proof. apply fold_left_app. Qed.

Lemma mount_new_page :
  let b : browser := mount new_page in
  pending b /\
  now b = 0 /\
  history b =
    [ SetTimeout InitializeApp 1500 1; AddEventListener "focus" HandleFocus ].
Proof. repeat split. Qed.

(** While the timer is pending and not due, an action other than the
    teardown leaves it pending; only a gain of focus adds to the history. *)
Lemma pending_step (b : browser) (a : action) :
  pending b -> a <> Unmount -> now b + elapsed [a] < 1500 ->
  pending (step w b a) /\
  now (step w b a) = now b + elapsed [a] /\
  exists focus_runs,
    history (step w b a) = history b ++ concat focus_runs /\
    List.length focus_runs = focus_count [a] /\
    Forall (fun t => exists r,
              t = [ ConsoleLog "Window gained focus, checking for missed notifications";
                    CheckMissedNotifications r ]) focus_runs.
Proof.
  intros Hp Ha Hnow. pose proof Hp as (Ht & Hl & Hc).
  destruct a as [ms | id | |]; simpl in *; [| | |congruence].
  - split; [exact Hp|]. split; [lia|].
    exists []. simpl. rewrite app_nil_r. repeat split. constructor.
  - assert (fire w id b = b) as ->.
    { unfold fire. rewrite Ht. cbn [find timer_id].
      destruct (1 =? id)%nat; [|reflexivity]. cbn [timer_due].
      destruct (Nat.leb_spec 1500 (now b)); [lia | reflexivity]. }
    split; [exact Hp|]. split; [lia|].
    exists []. simpl. rewrite app_nil_r. repeat split. constructor.
  - unfold dispatch. rewrite Hl. simpl.
    split; [exact Hp|]. split; [lia|].
    destruct (handleFocus_events (history b)) as [r Hr].
    exists [events (handleFocus w) (history b)].
    split; [|split; [reflexivity|]].
    + cbn [concat]. now rewrite app_nil_r.
    + constructor; [eauto | constructor].
Qed.

Lemma pending_run (actions : list action) (b : browser) :
  pending b -> ~ In Unmount actions -> now b + elapsed actions < 1500 ->
  pending (run w actions b) /\
  exists focus_runs,
    history (run w actions b) = history b ++ concat focus_runs /\
    List.length focus_runs = focus_count actions /\
    Forall (fun t => exists r,
              t = [ ConsoleLog "Window gained focus, checking for missed notifications";
                    CheckMissedNotifications r ]) focus_runs.
Proof.
  revert b. induction actions as [|a actions IH]; intros b Hp Hu Hnow.
  - split; [assumption|]. exists []. simpl. rewrite app_nil_r.
    repeat split. constructor.
  - assert (Ha : a <> Unmount) by (intros ->; apply Hu; now left).
    assert (Ha' : now b + elapsed [a] < 1500).
    { destruct a; simpl in *; lia. }
    destruct (pending_step b a Hp Ha Ha') as (Hp' & Hn' & runs1 & H1 & L1 & F1).
    destruct (IH (step w b a) Hp') as (Hp2 & runs2 & H2 & L2 & F2).
    { intros H. apply Hu. now right. }
    { rewrite Hn'. destruct a; simpl in *; lia. }
    split; [exact Hp2|]. exists (runs1 ++ runs2).
    simpl. rewrite H2, H1, concat_app, <- app_assoc.
    repeat split.
    + rewrite length_app, L1, L2. destruct a; reflexivity.
    + apply Forall_app; split; assumption.
Qed.

(** The teardown cancels the timer and removes the listener. *)
Lemma unmount_pending (b : browser) :
  pending b ->
  torn_down (unmount b) /\
  history (unmount b) =
    history b ++ [ ClearTimeout 1; RemoveEventListener "focus" HandleFocus ].
Proof.
  intros (Ht & Hl & Hc). unfold unmount, torn_down. rewrite Hc. simpl.
  rewrite Ht, Hl. simpl. rewrite <- app_assoc. repeat split.
Qed.

(** After the teardown the browser has nothing to call. *)
Lemma torn_down_step (b : browser) (a : action) :
  torn_down b -> torn_down (step w b a) /\ history (step w b a) = history b.
Proof.
  intros (Ht & Hl & Hc). unfold torn_down.
  destruct a as [ms | id | |]; simpl.
  - repeat split; assumption.
  - unfold fire. rewrite Ht. simpl. repeat split; assumption.
  - unfold dispatch. rewrite Hl. simpl. repeat split; assumption.
  - unfold unmount. rewrite Hc. repeat split; assumption.
Qed.

Lemma torn_down_run (actions : list action) (b : browser) :
  torn_down b ->
  torn_down (run w actions b) /\ history (run w actions b) = history b.
Proof.
  revert b. induction actions as [|a actions IH]; intros b Hb; simpl.
  - split; [assumption | reflexivity].
  - destruct (torn_down_step b a Hb) as [Hb' Hh].
    destruct (IH _ Hb') as [Hb2 Hh2]. split; [assumption | congruence].
Qed.

(** *** The claims about the bootstrap *)

(** C9: in every run of the body in which [backendSyncService.initialize()]
    rejects, [syncUserDataToBackend] is not called, whatever the store
    holds: the call stands in the [try] block of the initialisation. *)
Theorem sync_skipped_when_initialize_rejects (h : list event)
    (error : Error) :
  In (BackendInitialize (Rejected error)) (events (initializeApp w) h) ->
  forall rs ms profile r,
    ~ In (SyncUserDataToBackend rs ms profile r)
         (events (initializeApp w) h).
Proof.
  intros Hin.
  destruct (initializeApp_after_rejection h error Hin)
    as (state & after & _ & _ & _ & _ & H).
  exact H.
Qed.

(** C3: take any run of the page in which the browser fires the timer and
    the body that then runs has [initialize()] reject. The listener for
    [focus] was registered when [App] mounted, before the body started; the
    rejection is caught and logged; and after it the body still calls the
    migration (when reminders and medications both exist), the diagnostic
    and the check for missed notifications. *)
Theorem initialize_rejection_does_not_abort (actions : list action)
    (id : nat) (error : Error) (t : list event) :
  let b := run w actions (mount new_page) in
  history (fire w id b) = history b ++ t ->
  In (BackendInitialize (Rejected error)) t ->
  t = events (initializeApp w) (history b) /\
  In (AddEventListener "focus" HandleFocus) (history b) /\
  exists state after,
    t = [ ConsoleLog "App loaded, initializing iOS PWA notification system...";
          GetState state;
          ConsoleLog "🔄 Initializing backend sync service...";
          BackendInitialize (Rejected error);
          ConsoleError "❌ Backend sync initialization failed:" error;
          ConsoleLog "📱 Falling back to client-side notifications only" ] ++ after /\
    (reminders state <> [] -> medications state <> [] ->
     exists r,
       In (MigrateExistingReminders (reminders state) (medications state) r)
          after) /\
    (exists r, In (DiagnoseIOSPWANotificationIssues r) after) /\
    (exists r, In (CheckMissedNotifications r) after).
Proof.
  intros b Hfire Hin.
  assert (Hlistener : In (AddEventListener "focus" HandleFocus) (history b)).
  { subst b. destruct (history_run actions (mount new_page)) as [t' ->].
    apply in_or_app. left. simpl. tauto. }
  assert (Ht : t = events (initializeApp w) (history b)).
  { unfold fire in Hfire.
    destruct (find _ (timers b)) as [tm|];
      [destruct (_ <=? _)%nat|].
    - rewrite history_invoke in Hfire. cbn [history] in Hfire.
      apply app_inv_head in Hfire. subst t.
      destruct (timer_handler tm); [reflexivity|].
      exfalso. cbn [run_callback] in Hin.
      destruct (handleFocus_events (history b)) as [r Hr].
      rewrite Hr in Hin. not_in Hin.
    - rewrite <- (app_nil_r (history b)) in Hfire at 1.
      apply app_inv_head in Hfire. subst t. destruct Hin.
    - rewrite <- (app_nil_r (history b)) in Hfire at 1.
      apply app_inv_head in Hfire. subst t. destruct Hin. }
  split; [exact Ht|]. split; [exact Hlistener|].
  rewrite Ht in Hin.
  destruct (initializeApp_after_rejection _ _ Hin)
    as (state & after & Hafter & Hm & Hd & Hc & _).
  exists state, after. rewrite Ht. auto.
Qed.

(** C7: when [App] unmounts before 1500 ms have passed, the teardown cancels
    the timer and removes the listener, and nothing runs afterwards: the
    history stops at the teardown. The body of the bootstrap never starts;
    the only console output and service calls in the whole run are those of
    the focus handler, once for each gain of focus before the unmount. *)
Theorem unmount_before_delay_cancels_bootstrap (before after : list action) :
  elapsed before < 1500 ->
  ~ In Unmount before ->
  let final := run w (before ++ Unmount :: after) (mount new_page) in
  timers final = [] /\
  listeners final = [] /\
  history final = history (run w (before ++ [Unmount]) (mount new_page)) /\
  (exists focus_runs,
     history final =
       [ SetTimeout InitializeApp 1500 1;
         AddEventListener "focus" HandleFocus ] ++
       concat focus_runs ++
       [ ClearTimeout 1; RemoveEventListener "focus" HandleFocus ] /\
     List.length focus_runs = focus_count before /\
     Forall (fun t => exists r,
               t = [ ConsoleLog "Window gained focus, checking for missed notifications";
                     CheckMissedNotifications r ]) focus_runs) /\
  ~ In (ConsoleLog "App loaded, initializing iOS PWA notification system...")
       (history final).
Proof.
  intros Helapsed Hfirst final.
  destruct mount_new_page as (Hp & Hnow & Hh).
  destruct (pending_run before (mount new_page) Hp Hfirst)
    as (Hp' & runs & Hruns & Hlen & Hall).
  { rewrite Hnow. exact Helapsed. }
  destruct (unmount_pending _ Hp') as (Hdown & Hunmount).
  destruct (torn_down_run after _ Hdown) as ((Ht & Hl & _) & Hafter).
  assert (Hfinal : history final =
            [ SetTimeout InitializeApp 1500 1;
              AddEventListener "focus" HandleFocus ] ++
            concat runs ++
            [ ClearTimeout 1; RemoveEventListener "focus" HandleFocus ]).
  { subst final. rewrite run_app. cbn [run fold_left step].
    fold (run w after (unmount (run w before (mount new_page)))).
    rewrite Hafter, Hunmount, Hruns, Hh, <- app_assoc. reflexivity. }
  subst final. rewrite !run_app in *. cbn [run fold_left step] in *.
  fold (run w after (unmount (run w before (mount new_page)))) in *.
  split; [exact Ht|]. split; [exact Hl|]. split; [exact Hafter|].
  split; [exists runs; auto|].
  rewrite Hfinal. intros Hin.
  rewrite !in_app_iff in Hin. destruct Hin as [Hin | [Hin | Hin]].
  - not_in Hin.
  - apply in_concat in Hin. destruct Hin as (run1 & Hrun1 & Hin).
    rewrite List.Forall_forall in Hall.
    destruct (Hall _ Hrun1) as [r ->]. not_in Hin.
  - not_in Hin.
Qed.

(** C4: every run of the body reaches the diagnostic step; the step begins
    with the one call of [diagnoseIOSPWANotificationIssues()] that it makes,
    and in it [checkMissedNotifications()] is called. When the diagnostic resolves
    and the recovery, if it runs, does not reject, the call comes after the
    diagnostic and the recovery, and it is the only one unless it throws
    itself, in which case the fallback of the [catch] block calls it again.
    When the diagnostic or the recovery rejects, the call is the one of the
    [catch] block, made once, right after the error is logged.
    [implementMissedDoseRecovery()] is called exactly when the diagnostic
    resolves with a [coreIssue] that includes ['iOS Safari']. *)
Theorem missed_notifications_checked (h : list event) :
  let failed := ConsoleError "❌ Failed to run iOS PWA diagnostic:" in
  exists before step,
    events (initializeApp w) h =
      before ++
      [ ConsoleLog "Running iOS PWA notification diagnostic and recovery..." ] ++
      step /\
    Forall (fun e => diagnostic_call e = false) before /\
    (exists r rest,
       step = DiagnoseIOSPWANotificationIssues r :: rest /\
       forall r', ~ In (DiagnoseIOSPWANotificationIssues r') rest) /\
    (exists r, In (CheckMissedNotifications r) step) /\
    (forall d,
       In (DiagnoseIOSPWANotificationIssues (Resolved d)) step ->
       (forall error,
          ~ In (ImplementMissedDoseRecovery (Rejected error)) step) ->
       exists calls r rest,
         step = calls ++ CheckMissedNotifications r :: rest /\
         In (DiagnoseIOSPWANotificationIssues (Resolved d)) calls /\
         (forall r', In (ImplementMissedDoseRecovery r') step ->
                     In (ImplementMissedDoseRecovery r') calls) /\
         (forall r', ~ In (CheckMissedNotifications r') calls) /\
         match r with
         | Resolved _ => rest = []
         | Rejected error =>
             exists r', rest = [ failed error; CheckMissedNotifications r' ]
         end) /\
    (forall error,
       In (DiagnoseIOSPWANotificationIssues (Rejected error)) step \/
       In (ImplementMissedDoseRecovery (Rejected error)) step ->
       exists calls r,
         step = calls ++ [ failed error; CheckMissedNotifications r ] /\
         forall r', ~ In (CheckMissedNotifications r') calls) /\
    ((exists r, In (ImplementMissedDoseRecovery r) step) <->
     (exists d,
        In (DiagnoseIOSPWANotificationIssues (Resolved d)) step /\
        includes (coreIssue d) "iOS Safari" = true)).
Proof.
  intros failed.
  destruct (initializeApp_reaches_diagnostic h)
    as (before & h_diagnostic & Ht & Hbefore).
  exists before, (events (diagnostic_block w) h_diagnostic).
  split; [exact Ht|]. split; [exact Hbefore|]. clear Ht Hbefore.
  pose proof (diagnostic_block_events h_diagnostic) as Hshape.
  cbv zeta in Hshape. fold failed in Hshape.
  set (log_results :=
         ConsoleLogDiagnostic "📊 iOS PWA Notification Diagnostic Results:") in *.
  set (log_ios :=
         ConsoleLog
           "🍎 iOS PWA detected - implementing missed dose recovery system") in *.
  destruct Hshape
    as [(e1 & r1 & ->) |
        [(d0 & Hd0 & [-> | (e1 & r1 & ->)]) |
         (d0 & Hd0 & [-> | [(e1 & r1 & ->) | (e1 & r1 & ->)]])]].
  - (* the diagnostic rejects *)
    split; [do 2 eexists; split; [reflexivity | intros r' H; invert_in H]|].
    split; [eexists; in_list|]. split; [|split; [|split]].
    + intros d Hd. invert_in Hd.
    + intros error [H | H]; invert_in H.
      exists [DiagnoseIOSPWANotificationIssues (Rejected error)], r1.
      split; [reflexivity|]. intros r' H. invert_in H.
    + intros [r H]. invert_in H.
    + intros (d & H & _). invert_in H.
  - (* no marker; the check returns *)
    split; [do 2 eexists; split; [reflexivity | intros r' H; invert_in H]|].
    split; [eexists; in_list|]. split; [|split; [|split]].
    + intros d Hd _. invert_in Hd.
      exists [DiagnoseIOSPWANotificationIssues (Resolved d); log_results d],
        (Resolved tt), [].
      split; [reflexivity|]. split; [in_list|].
      split; [intros r' H; invert_in H|].
      split; [intros r' H; invert_in H | reflexivity].
    + intros error [H | H]; invert_in H.
    + intros [r H]. invert_in H.
    + intros (d & H & Hd). invert_in H. congruence.
  - (* no marker; the check throws *)
    split; [do 2 eexists; split; [reflexivity | intros r' H; invert_in H]|].
    split; [eexists; in_list|]. split; [|split; [|split]].
    + intros d Hd _. invert_in Hd.
      exists [DiagnoseIOSPWANotificationIssues (Resolved d); log_results d],
        (Rejected e1), [failed e1; CheckMissedNotifications r1].
      split; [reflexivity|]. split; [in_list|].
      split; [intros r' H; invert_in H|].
      split; [intros r' H; invert_in H | exists r1; reflexivity].
    + intros error [H | H]; invert_in H.
    + intros [r H]. invert_in H.
    + intros (d & H & Hd). invert_in H. congruence.
  - (* marker; the recovery resolves, the check returns *)
    split; [do 2 eexists; split; [reflexivity | intros r' H; invert_in H]|].
    split; [eexists; in_list|]. split; [|split; [|split]].
    + intros d Hd _. invert_in Hd.
      exists [DiagnoseIOSPWANotificationIssues (Resolved d); log_results d;
              log_ios; ImplementMissedDoseRecovery (Resolved tt)],
        (Resolved tt), [].
      split; [reflexivity|]. split; [in_list|].
      split; [intros r' H; invert_in H; in_list|].
      split; [intros r' H; invert_in H | reflexivity].
    + intros error [H | H]; invert_in H.
    + eexists. split; [in_list | exact Hd0].
    + intros _. eexists. in_list.
  - (* marker; the recovery resolves, the check throws *)
    split; [do 2 eexists; split; [reflexivity | intros r' H; invert_in H]|].
    split; [eexists; in_list|]. split; [|split; [|split]].
    + intros d Hd _. invert_in Hd.
      exists [DiagnoseIOSPWANotificationIssues (Resolved d); log_results d;
              log_ios; ImplementMissedDoseRecovery (Resolved tt)],
        (Rejected e1), [failed e1; CheckMissedNotifications r1].
      split; [reflexivity|]. split; [in_list|].
      split; [intros r' H; invert_in H; in_list|].
      split; [intros r' H; invert_in H | exists r1; reflexivity].
    + intros error [H | H]; invert_in H.
    + eexists. split; [in_list | exact Hd0].
    + intros _. eexists. in_list.
  - (* marker; the recovery rejects *)
    split; [do 2 eexists; split; [reflexivity | intros r' H; invert_in H]|].
    split; [eexists; in_list|]. split; [|split; [|split]].
    + intros d Hd Hrecovery. exfalso. apply (Hrecovery e1). in_list.
    + intros error [H | H]; invert_in H.
      exists [DiagnoseIOSPWANotificationIssues (Resolved d0); log_results d0;
              log_ios; ImplementMissedDoseRecovery (Rejected error)], r1.
      split; [reflexivity|]. intros r' H. invert_in H.
    + eexists. split; [in_list | exact Hd0].
    + intros _. eexists. in_list.
Qed.

End Bootstrap.

(** *** A run on the offline phone *)

Example offline_bootstrap :
  events (initializeApp Samples.offline_world) [] =
  let state :=
    {| reminders := [1]; medications := [7]; userProfile := Some tt |} in
  let diagnostic :=
    {| coreIssue :=
         "iOS Safari PWA does not deliver background notifications" |} in
  [ ConsoleLog "App loaded, initializing iOS PWA notification system...";
    GetState state;
    ConsoleLog "🔄 Initializing backend sync service...";
    BackendInitialize (Rejected "network error");
    ConsoleError "❌ Backend sync initialization failed:" "network error";
    ConsoleLog "📱 Falling back to client-side notifications only";
    ConsoleLog "🔄 Starting iOS PWA reminder migration...";
    MigrateExistingReminders [1] [7] (Resolved tt);
    ConsoleLog "✅ iOS PWA reminder migration completed";
    ConsoleLog "Running iOS PWA notification diagnostic and recovery...";
    DiagnoseIOSPWANotificationIssues (Resolved diagnostic);
    ConsoleLogDiagnostic "📊 iOS PWA Notification Diagnostic Results:" diagnostic;
    ConsoleLog
      "🍎 iOS PWA detected - implementing missed dose recovery system";
    ImplementMissedDoseRecovery (Resolved tt);
    CheckMissedNotifications (Resolved tt) ].
Proof. reflexivity. Qed.

Example offline_unmount :
  history (run Samples.offline_world
             (Samples.before_unmount ++ Unmount :: Samples.after_unmount)
             (mount new_page)) =
  [ SetTimeout InitializeApp 1500 1;
    AddEventListener "focus" HandleFocus;
    ConsoleLog "Window gained focus, checking for missed notifications";
    CheckMissedNotifications (Resolved tt);
    ClearTimeout 1;
    RemoveEventListener "focus" HandleFocus ].
Proof. reflexivity. Qed.

Lemma sync_skipped_when_initialize_rejects_witness :
  In (BackendInitialize (Rejected "network error"))
     (events (initializeApp Samples.offline_world) []) /\
  forall rs ms profile r,
    ~ In (SyncUserDataToBackend rs ms profile r)
         (events (initializeApp Samples.offline_world) []).
Proof.
  assert (H : In (BackendInitialize (Rejected "network error"))
                 (events (initializeApp Samples.offline_world) []))
    by in_list.
  split; [exact H|].
  exact (sync_skipped_when_initialize_rejects Samples.offline_world []
           "network error" H).
Defined.

Lemma initialize_rejection_does_not_abort_witness :
  let b := run Samples.offline_world [Elapse 1500] (mount new_page) in
  let t := events (initializeApp Samples.offline_world) (history b) in
  history (fire Samples.offline_world 1 b) = history b ++ t /\
  In (BackendInitialize (Rejected "network error")) t /\
  In (AddEventListener "focus" HandleFocus) (history b).
Proof.
  intros b t.
  assert (H1 : history (fire Samples.offline_world 1 b) = history b ++ t)
    by reflexivity.
  assert (H2 : In (BackendInitialize (Rejected "network error")) t)
    by in_list.
  split; [exact H1|]. split; [exact H2|].
  exact (proj1 (proj2 (initialize_rejection_does_not_abort
                         Samples.offline_world [Elapse 1500] 1
                         "network error" t H1 H2))).
Defined.

Lemma unmount_before_delay_cancels_bootstrap_witness :
  elapsed Samples.before_unmount < 1500 /\
  ~ In Unmount Samples.before_unmount /\
  timers (run Samples.offline_world
            (Samples.before_unmount ++ Unmount :: Samples.after_unmount)
            (mount new_page)) = [].
Proof.
  assert (H1 : elapsed Samples.before_unmount < 1500) by (simpl; lia).
  assert (H2 : ~ In Unmount Samples.before_unmount)
    by (simpl; intuition discriminate).
  split; [exact H1|]. split; [exact H2|].
  exact (proj1 (unmount_before_delay_cancels_bootstrap Samples.offline_world
                  Samples.before_unmount Samples.after_unmount H1 H2)).
Defined.

End AppFacts.

(** ** The generator, further *)

Module FirebaseSwMore.

Import FirebaseSw FirebaseSwText FirebaseSwFacts.

Lemma valid_output (g : globals) :
  truthy (hasValidConfig (getFirebaseServiceWorkerConfig g)) = true ->
  generateFirebaseServiceWorkerContent g =
  header ++ valid_branch (getFirebaseServiceWorkerConfig g) ++
  initialization_block ++ fallback_block.
Proof. intros H. rewrite generate_unfold, H. reflexivity. Qed.

Lemma invalid_output (g : globals) :
  truthy (hasValidConfig (getFirebaseServiceWorkerConfig g)) = false ->
  generateFirebaseServiceWorkerContent g = disabled_output.
Proof. intros H. rewrite generate_unfold, H. reflexivity. Qed.

Lemma valid_output_imports (g : globals) :
  truthy (hasValidConfig (getFirebaseServiceWorkerConfig g)) = true ->
  contains (generateFirebaseServiceWorkerContent g) "import".
Proof.
  intros H. rewrite (valid_output g H). unfold valid_branch.
  apply contains_app_r, contains_app_l.
  apply contains_app_r, contains_app_r, contains_app_r, contains_app_l.
  exists "", "Scripts('https://www.gstatic.com/firebasejs/10.7.1/firebase-app-compat.js');".
  reflexivity.
Qed.

(** X1: a valid configuration and an invalid one never give the same text:
    the text of a valid configuration contains [import], the disabled text
    does not. *)
Theorem branches_never_coincide (g1 g2 : globals) :
  truthy (hasValidConfig (getFirebaseServiceWorkerConfig g1)) = true ->
  truthy (hasValidConfig (getFirebaseServiceWorkerConfig g2)) = false ->
  generateFirebaseServiceWorkerContent g1 <>
  generateFirebaseServiceWorkerContent g2.
Proof.
  intros H1 H2 Heq.
  pose proof (valid_output_imports g1 H1) as Hc.
  rewrite Heq, (invalid_output g2 H2) in Hc.
  apply (proj1 (not_includes_spec _ _) disabled_output_has_no_import Hc).
Qed.

Lemma branches_never_coincide_witness :
  generateFirebaseServiceWorkerContent Samples.build_globals <>
  generateFirebaseServiceWorkerContent Scenarios.bare_process_globals.
Proof.
  apply (branches_never_coincide Samples.build_globals
           Scenarios.bare_process_globals); vm_compute; reflexivity.
Defined.

(** X3: when [process.env] is defined, [import.meta.env] is never
    consulted, not even for a variable that [process.env] lacks: if one of
    the three required variables is unset or empty in [process.env], the
    text is the disabled one whatever [import.meta.env] holds. *)
Theorem process_env_shadows_import_meta (e m : gmap string string) :
  js_or (e !! "VITE_FIREBASE_API_KEY") "" = "" \/
  js_or (e !! "VITE_FIREBASE_PROJECT_ID") "" = "" \/
  js_or (e !! "VITE_FIREBASE_MESSAGING_SENDER_ID") "" = "" ->
  generateFirebaseServiceWorkerContent
    {| process := Some {| process_env := Some e |}; import_meta_env := m |} =
  disabled_output.
Proof.
  intros H. apply invalid_output.
  rewrite hasValidConfig_truthy.
  cbn [getFirebaseServiceWorkerConfig env process process_env apiKey
         projectId messagingSenderId].
  destruct H as [-> | [-> | ->]]; cbn [truthy String.eqb negb];
    rewrite ?andb_false_r; reflexivity.
Qed.

(** Without the condition on double quotes, two configurations can give
    the same text. *)
Lemma unquoted_values_collide :
  generateFirebaseServiceWorkerContent Scenarios.quoting_globals_1 =
  generateFirebaseServiceWorkerContent Scenarios.quoting_globals_2 /\
  getFirebaseServiceWorkerConfig Scenarios.quoting_globals_1 <>
  getFirebaseServiceWorkerConfig Scenarios.quoting_globals_2.
Proof. split; [vm_compute; reflexivity | vm_compute; discriminate]. Qed.


Lemma includes_leading_quote (a : string) :
  includes (String (ascii_of_nat 34) a) dq = true.
Proof. apply includes_spec. exists "", a. reflexivity. Qed.

(** A string without double quote ends at the first double quote of any
    text that starts with it. *)
Lemma split_at_quote (a a' r r' : string) :
  includes a dq = false -> includes a' dq = false ->
  a ++ dq ++ r = a' ++ dq ++ r' -> a = a' /\ r = r'.
Proof.
  revert a'. induction a as [|c a IH]; intros [|c' a'] Ha Ha' H.
  - split; [reflexivity|]. now apply (inj (String.app dq)) in H.
  - exfalso.
    change (String (ascii_of_nat 34) r = String c' (a' ++ dq ++ r')) in H.
    injection H as <- _. now rewrite includes_leading_quote in Ha'.
  - exfalso.
    change (String c (a ++ dq ++ r) = String (ascii_of_nat 34) r') in H.
    injection H as -> _. now rewrite includes_leading_quote in Ha.
  - rewrite !append_cons in H. injection H as <- H.
    rewrite includes_cons in Ha, Ha'.
    apply orb_false_elim in Ha as [_ Ha].
    apply orb_false_elim in Ha' as [_ Ha'].
    destruct (IH a' Ha Ha' H) as [-> ->]. now split.
Qed.

Lemma quote_free_values (config : FirebaseConfig) :
  quote_free config = true ->
  includes (apiKey config) dq = false /\
  includes (authDomain config) dq = false /\
  includes (projectId config) dq = false /\
  includes (storageBucket config) dq = false /\
  includes (messagingSenderId config) dq = false /\
  includes (appId config) dq = false.
Proof.
  unfold quote_free, config_values. cbn [forallb].
  rewrite !andb_true_iff, !negb_true_iff. tauto.
Qed.

(** X2: the configuration can be read back from the text when no value
    holds a double quote: two valid configurations without double quotes
    that give the same text are equal. (With a double quote in a value the
    text can be the same for different configurations, see
    [unquoted_values_collide].) *)
Theorem config_read_back (g1 g2 : globals) :
  let config1 := getFirebaseServiceWorkerConfig g1 in
  let config2 := getFirebaseServiceWorkerConfig g2 in
  truthy (hasValidConfig config1) = true ->
  truthy (hasValidConfig config2) = true ->
  quote_free config1 = true ->
  quote_free config2 = true ->
  generateFirebaseServiceWorkerContent g1 =
  generateFirebaseServiceWorkerContent g2 ->
  config1 = config2.
Proof.
  intros config1 config2 H1 H2 Q1 Q2 H.
  rewrite (valid_output g1 H1), (valid_output g2 H2) in H.
  fold config1 config2 in H.
  apply quote_free_values in Q1 as (A1 & B1 & C1 & D1 & E1 & F1).
  apply quote_free_values in Q2 as (A2 & B2 & C2 & D2 & E2 & F2).
  unfold valid_branch, firebaseConfig_literal, property in H.
  rewrite !append_assoc in H.
  repeat first
    [ apply (inj (String.app _)) in H
    | apply split_at_quote in H; [destruct H as [? H] | assumption ..] ].
  destruct config1, config2; cbn in *; congruence.
Qed.

Lemma process_env_shadows_import_meta_witness :
  generateFirebaseServiceWorkerContent Scenarios.bare_process_globals =
  disabled_output.
Proof.
  apply (process_env_shadows_import_meta ∅
           (import_meta_env Samples.browser_globals)).
  left. reflexivity.
Defined.

Lemma config_read_back_witness :
  getFirebaseServiceWorkerConfig Samples.build_globals =
  getFirebaseServiceWorkerConfig Samples.browser_globals.
Proof.
  apply (config_read_back Samples.build_globals Samples.browser_globals);
    vm_compute; reflexivity.
Defined.

End FirebaseSwMore.

(** ** The background-message handler, further *)

Module ServiceWorkerMore.

Import FirebaseSw ServiceWorker ServiceWorkerFacts.

Lemma js_or_some_nonempty (s d : string) : s <> "" -> js_or (Some s) d = s.
Proof. intros H. unfold js_or. apply truthy_true in H. now rewrite H. Qed.

(** X4: the title of the notification is [payload.notification.title] when
    that is present and not empty, else ['MedTrack Reminder']; its body is
    [payload.notification.body] when that is present and not empty, else
    ['Time for your medication']. A payload without [notification] gets both
    defaults. *)
Theorem title_and_body_defaults (now : Z) (payload : MessagePayload) :
  (notification payload = None ->
   notificationTitle payload = "MedTrack Reminder" /\
   opt_body (notificationOptions now payload) = "Time for your medication") /\
  (forall n,
     notification payload = Some n ->
     (forall t, title n = Some t -> t <> "" ->
                notificationTitle payload = t) /\
     (title n = None \/ title n = Some "" ->
      notificationTitle payload = "MedTrack Reminder") /\
     (forall b, body n = Some b -> b <> "" ->
                opt_body (notificationOptions now payload) = b) /\
     (body n = None \/ body n = Some "" ->
      opt_body (notificationOptions now payload) =
        "Time for your medication")).
Proof.
  unfold notificationTitle, notificationOptions. cbn [opt_body]. split.
  - intros ->. split; reflexivity.
  - intros n ->. cbn [mbind option_bind]. repeat apply conj.
    + intros t -> Ht. now apply js_or_some_nonempty.
    + intros [-> | ->]; reflexivity.
    + intros b -> Hb. now apply js_or_some_nonempty.
    + intros [-> | ->]; reflexivity.
Qed.

(** X5: in the data of the notification, [fcm] is [true] and [timestamp]
    is [Date.now()] even when the payload brings keys of these names; every
    other key has the value the payload gives it, and no other key is
    added. *)
Theorem notification_data_merge (now : Z) (payload : MessagePayload) :
  let merged := notification_data now payload in
  opt_data (notificationOptions now payload) = Some merged /\
  merged !! "fcm" = Some (DBool true) /\
  merged !! "timestamp" = Some (DNumber now) /\
  (forall key : string,
     key <> "fcm" -> key <> "timestamp" ->
     merged !! key =
       match data payload with
       | Some d => DString <$> d !! key
       | None => None
       end).
Proof.
  intros merged. subst merged. unfold notification_data.
  split; [reflexivity|]. split; [|split].
  - rewrite lookup_insert_ne by discriminate. apply lookup_insert_eq.
  - apply lookup_insert_eq.
  - intros key Hf Ht.
    rewrite lookup_insert_ne by congruence.
    rewrite lookup_insert_ne by congruence.
    rewrite lookup_fmap.
    destruct (data payload) as [d|]; [reflexivity|].
    simpl. now rewrite lookup_empty.
Qed.

(** X6: the handler first logs the payload, then asks for the notification
    built from it. When that call returns there is no second notification
    and no error is logged; when it throws, the error is logged and one
    more notification is asked for, the same for every payload, which
    carries no data, no tag and no action. *)
Theorem handler_attempts throws (now : Z) (payload : MessagePayload) :
  let effects := onBackgroundMessage throws now payload in
  let first := (notificationTitle payload, notificationOptions now payload) in
  hd_error effects =
    Some (SwConsoleLog "📱 FCM background message received:" payload) /\
  (throws (fst first) (snd first) = false ->
   shown effects = [first] /\
   forall msg, ~ In (SwConsoleError msg) effects) /\
  (throws (fst first) (snd first) = true ->
   shown effects = [first; ("MedTrack Reminder", fallbackOptions)] /\
   In (SwConsoleError "Failed to show FCM background notification:")
      effects) /\
  opt_data fallbackOptions = None /\
  opt_tag fallbackOptions = None /\
  opt_actions fallbackOptions = [].
Proof.
  intros effects first. subst effects first.
  unfold onBackgroundMessage. cbn [fst snd hd_error].
  split; [reflexivity|]. split; [|split].
  - intros ->. split; [reflexivity|].
    intros msg [H | [H | []]]; discriminate H.
  - intros ->. split; [reflexivity|]. simpl. tauto.
  - repeat split.
Qed.

(** X7: the script exports the messaging object of Firebase exactly when
    [firebaseConfig] is not [null], its [apiKey] and [projectId] are not
    empty, and neither [firebase.initializeApp] nor [firebase.messaging]
    throws. The test looks at these two properties of the object alone:
    [messagingSenderId], which the generator requires, is not looked at,
    nor are the other three. *)
Theorem messaging_is_firebase_iff (firebaseConfig : option FirebaseConfig)
    (firebase : firebase_behaviour) :
  (self_firebaseMessaging firebaseConfig firebase = Some FirebaseMessaging <->
   exists config,
     firebaseConfig = Some config /\
     apiKey config <> "" /\ projectId config <> "" /\
     firebase <> InitializeAppThrows /\ firebase <> MessagingThrows) /\
  (forall config a s m i,
     self_firebaseMessaging
       (Some {| apiKey := apiKey config; authDomain := a;
                projectId := projectId config; storageBucket := s;
                messagingSenderId := m; appId := i |}) firebase =
     self_firebaseMessaging (Some config) firebase).
Proof.
  unfold self_firebaseMessaging, initialize_messaging. split.
  - destruct firebaseConfig as [config|].
    + rewrite js_and_truthy.
      destruct (truthy (apiKey config)) eqn:Ea;
        destruct (truthy (projectId config)) eqn:Ep; cbn [andb].
      1: apply truthy_true in Ea, Ep.
      2-4: try apply truthy_false in Ea; try apply truthy_false in Ep.
      1: destruct firebase; cbn [fallback_messaging]; split;
           try discriminate;
           try (intros _; exists config; repeat split; congruence);
           intros (c & _ & _ & _ & H1 & H2); congruence.
      all: cbn [fallback_messaging]; split; try discriminate;
           intros (c & [= <-] & H1 & H2 & _); congruence.
    + cbn [fallback_messaging]. split; [discriminate|].
      intros (c & H & _). discriminate H.
  - intros config a s m i. reflexivity.
Qed.

End ServiceWorkerMore.


(** ** The bootstrap, further *)

Module AppMore.

Import App AppTrace AppFacts.

#[local] Open Scope list_scope.

Section Bootstrap.

Context {Reminder Medication UserProfile Error : Type}.

Abbreviation event := (@event Reminder Medication UserProfile Error).
Abbreviation world := (@world Reminder Medication UserProfile Error).
Abbreviation browser := (@browser Reminder Medication UserProfile Error).

Variable w : world.

(** *** The service calls of each block *)

Lemma service_calls_app (t1 t2 : list event) :
  service_calls (t1 ++ t2) = service_calls t1 ++ service_calls t2.
Proof. apply omap_app. Qed.

Lemma service_call_in (e : event) (k : nat) (t : list event) :
  step_rank e = Some k -> In e t -> In k (service_calls t).
Proof.
  intros Hk Hin. apply list_elem_of_In. unfold service_calls.
  apply list_elem_of_omap. exists e. split; [now apply list_elem_of_In|assumption].
Qed.

Lemma backend_sync_block_calls (rs : list Reminder) (ms : list Medication)
    (h : list event) :
  service_calls (events (backend_sync_block w rs ms) h) = [1] \/
  service_calls (events (backend_sync_block w rs ms) h) = [1; 2].
Proof.
  destruct (backend_sync_block_events w rs ms h)
    as [(e & ->) | [(_ & _ & ->) | (_ & s & r & tail & -> & Htail)]];
    [ | | destruct r as [[|]|e]; subst tail ]; cbn; auto.
Qed.

Lemma migration_block_calls (rs : list Reminder) (ms : list Medication)
    (h : list event) :
  service_calls (events (migration_block w rs ms) h) = [] \/
  service_calls (events (migration_block w rs ms) h) = [3].
Proof.
  destruct (migration_block_events w rs ms h)
    as [(_ & ->) | (_ & _ & [-> | (e & ->)])]; cbn; auto.
Qed.

Lemma diagnostic_block_calls (h : list event) :
  In (service_calls (events (diagnostic_block w) h))
     [ [4; 6]; [4; 6; 6]; [4; 5; 6]; [4; 5; 6; 6] ].
Proof.
  destruct (diagnostic_block_events w h)
    as [(e1 & r1 & ->) |
        [(d & _ & [-> | (e1 & r1 & ->)]) |
         (d & _ & [-> | [(e1 & r1 & ->) | (e1 & r1 & ->)]])]];
    cbn; auto 6.
Qed.

Lemma initializeApp_calls (h : list event) :
  exists a b c,
    service_calls (events (initializeApp w) h) = a ++ b ++ c /\
    (a = [1] \/ a = [1; 2]) /\
    (b = [] \/ b = [3]) /\
    In c [ [4; 6]; [4; 6; 6]; [4; 5; 6]; [4; 5; 6; 6] ].
Proof.
  destruct (initializeApp_events w h)
    as (state & h_sync & h_migration & h_diagnostic & ->).
  rewrite !service_calls_app. cbn [service_calls omap list_omap step_rank app].
  do 3 eexists. split; [reflexivity|].
  split; [apply backend_sync_block_calls|].
  split; [apply migration_block_calls | apply diagnostic_block_calls].
Qed.

(** X8: in every run of the body the service calls come in the order
    [initialize], [syncUserDataToBackend], [migrateExistingReminders],
    [diagnoseIOSPWANotificationIssues], [implementMissedDoseRecovery],
    [checkMissedNotifications], and none is retried: [initialize] and the
    diagnostic are called once, the sync, the migration and the recovery at
    most once, the check once or twice. *)
Theorem service_calls_in_order (h : list event) :
  let calls := service_calls (events (initializeApp w) h) in
  StronglySorted le calls /\
  count_occ Nat.eq_dec calls 1 = 1 /\
  count_occ Nat.eq_dec calls 2 <= 1 /\
  count_occ Nat.eq_dec calls 3 <= 1 /\
  count_occ Nat.eq_dec calls 4 = 1 /\
  count_occ Nat.eq_dec calls 5 <= 1 /\
  1 <= count_occ Nat.eq_dec calls 6 <= 2.
Proof.
  intros calls. subst calls.
  destruct (initializeApp_calls h) as (a & b & c & -> & Ha & Hb & Hc).
  cbn [In] in Hc.
  destruct Ha as [-> | ->], Hb as [-> | ->],
    Hc as [<- | [<- | [<- | [<- | []]]]]; cbn.
  all: split; [repeat constructor | lia].
Qed.

(** *** Where a service call of the body comes from *)

Lemma call_in_block (state : StoreState)
    (h_sync h_migration h_diagnostic : list event) (e : event) (k : nat) :
  step_rank e = Some k ->
  In e ([ ConsoleLog "App loaded, initializing iOS PWA notification system...";
          GetState state ] ++
        events (backend_sync_block w (reminders state) (medications state))
          h_sync ++
        events (migration_block w (reminders state) (medications state))
          h_migration ++
        [ ConsoleLog "Running iOS PWA notification diagnostic and recovery..." ] ++
        events (diagnostic_block w) h_diagnostic) ->
  (k <= 2 /\
   In e (events (backend_sync_block w (reminders state) (medications state))
           h_sync)) \/
  (k = 3 /\
   In e (events (migration_block w (reminders state) (medications state))
           h_migration)) \/
  (4 <= k /\ In e (events (diagnostic_block w) h_diagnostic)).
Proof.
  intros Hk Hin. rewrite !in_app_iff in Hin.
  destruct Hin as [Hin | [Hin | [Hin | [Hin | Hin]]]].
  - simpl in Hin. destruct Hin as [<- | [<- | []]]; discriminate Hk.
  - left. split; [|assumption].
    pose proof (service_call_in e k _ Hk Hin) as H.
    destruct (backend_sync_block_calls (reminders state) (medications state)
                h_sync) as [E | E]; rewrite E in H; simpl in H; lia.
  - right. left. split; [|assumption].
    pose proof (service_call_in e k _ Hk Hin) as H.
    destruct (migration_block_calls (reminders state) (medications state)
                h_migration) as [E | E]; rewrite E in H; simpl in H; lia.
  - simpl in Hin. destruct Hin as [<- | []]. discriminate Hk.
  - right. right. split; [|assumption].
    pose proof (service_call_in e k _ Hk Hin) as H.
    pose proof (diagnostic_block_calls h_diagnostic) as E. cbn [In] in E.
    destruct E as [E | [E | [E | [E | []]]]]; rewrite <- E in H;
      simpl in H; lia.
Qed.

(** X9: [syncUserDataToBackend] is called exactly when [initialize()]
    resolves and the store holds a reminder or a medication. It is given
    the reminders and medications read at the start of the body, and the
    user profile of a second read of the store made just before the call. *)
Theorem sync_exactly_when_data (h : list event) :
  exists state rest,
    events (initializeApp w) h =
      [ ConsoleLog "App loaded, initializing iOS PWA notification system...";
        GetState state ] ++ rest /\
    ((exists rs ms profile r, In (SyncUserDataToBackend rs ms profile r) rest)
     <->
     In (BackendInitialize (Resolved tt)) rest /\
     (reminders state <> [] \/ medications state <> [])) /\
    (forall rs ms profile r,
       In (SyncUserDataToBackend rs ms profile r) rest ->
       rs = reminders state /\ ms = medications state /\
       exists state',
         profile = userProfile state' /\
         followed_by (GetState state')
           (SyncUserDataToBackend rs ms profile r) rest).
Proof.
  destruct (initializeApp_events w h)
    as (state & h_sync & h_migration & h_diagnostic & Ht).
  exists state. eexists. split; [exact Ht|].
  assert (Hblock : forall e k,
            step_rank e = Some k -> k <= 2 ->
            In e (events
                    (backend_sync_block w (reminders state)
                       (medications state)) h_sync ++
                  events
                    (migration_block w (reminders state) (medications state))
                    h_migration ++
                  [ ConsoleLog "Running iOS PWA notification diagnostic and recovery..." ] ++
                  events (diagnostic_block w) h_diagnostic) ->
            In e (events
                    (backend_sync_block w (reminders state)
                       (medications state)) h_sync)).
  { intros e k Hk Hle Hin.
    destruct (call_in_block state h_sync h_migration h_diagnostic e k Hk)
      as [[_ H] | [[H _] | [H _]]]; [|assumption|lia..].
    apply in_or_app. now right. }
  pose proof (backend_sync_block_events w (reminders state)
                (medications state) h_sync) as Hshape.
  cbv zeta in Hshape.
  split.
  - split.
    + intros (rs & ms & profile & r & Hin).
      eapply (Hblock _ 2) in Hin; [|reflexivity|lia].
      destruct Hshape
        as [(e & Hs) | [(_ & _ & Hs) | (Hne & s & r' & tail & Hs & Htail)]].
      * rewrite Hs in Hin. invert_in Hin.
      * rewrite Hs in Hin. invert_in Hin.
      * split; [|exact Hne]. apply in_or_app. left.
        rewrite Hs. apply in_or_app. left. in_list.
    + intros (Hin & Hne).
      eapply (Hblock _ 1) in Hin; [|reflexivity|lia].
      destruct Hshape
        as [(e & Hs) | [(Hrs & Hms & Hs) | (_ & s & r' & tail & Hs & Htail)]].
      * rewrite Hs in Hin. invert_in Hin.
      * tauto.
      * exists (reminders state), (medications state), (userProfile s), r'.
        apply in_or_app. left. rewrite Hs. apply in_or_app. left. in_list.
  - intros rs ms profile r Hin.
    eapply (Hblock _ 2) in Hin; [|reflexivity|lia].
    destruct Hshape
      as [(e & Hs) | [(_ & _ & Hs) | (Hne & s & r' & tail & Hs & Htail)]];
      rewrite Hs in Hin.
    + invert_in Hin.
    + invert_in Hin.
    + assert (Hsync : SyncUserDataToBackend (reminders state)
                        (medications state) (userProfile s) r' =
                      SyncUserDataToBackend rs ms profile r).
      { apply in_app_or in Hin. destruct Hin as [Hin | Hin].
        - invert_in Hin. reflexivity.
        - destruct r' as [[|]|e]; [subst tail ..]; invert_in Hin. }
      injection Hsync as <- <- <- <-.
      split; [reflexivity|]. split; [reflexivity|].
      exists s. split; [reflexivity|]. rewrite Hs.
      exists [ ConsoleLog "🔄 Initializing backend sync service...";
               BackendInitialize (Resolved tt);
               ConsoleLog "✅ Backend sync service initialized successfully";
               ConsoleLog "📤 Syncing existing data to backend..." ].
      eexists. cbn [app]. reflexivity.
Qed.

(** X10: [migrateExistingReminders] is called exactly when the store, as
    read at the start of the body, holds both a reminder and a medication,
    whatever happened to the backend sync; it is given these two lists. *)
Theorem migration_exactly_when_both (h : list event) :
  exists state rest,
    events (initializeApp w) h =
      [ ConsoleLog "App loaded, initializing iOS PWA notification system...";
        GetState state ] ++ rest /\
    ((exists rs ms r, In (MigrateExistingReminders rs ms r) rest) <->
     reminders state <> [] /\ medications state <> []) /\
    (forall rs ms r,
       In (MigrateExistingReminders rs ms r) rest ->
       rs = reminders state /\ ms = medications state).
Proof.
  destruct (initializeApp_events w h)
    as (state & h_sync & h_migration & h_diagnostic & Ht).
  exists state. eexists. split; [exact Ht|].
  assert (Hblock : forall e,
            step_rank e = Some 3 ->
            In e (events
                    (backend_sync_block w (reminders state)
                       (medications state)) h_sync ++
                  events
                    (migration_block w (reminders state) (medications state))
                    h_migration ++
                  [ ConsoleLog "Running iOS PWA notification diagnostic and recovery..." ] ++
                  events (diagnostic_block w) h_diagnostic) ->
            In e (events
                    (migration_block w (reminders state) (medications state))
                    h_migration)).
  { intros e Hk Hin.
    destruct (call_in_block state h_sync h_migration h_diagnostic e 3 Hk)
      as [[H _] | [[_ H] | [H _]]]; [|lia|assumption|lia].
    apply in_or_app. now right. }
  pose proof (migration_block_events w (reminders state)
                (medications state) h_migration) as Hshape.
  cbv zeta in Hshape.
  split.
  - split.
    + intros (rs & ms & r & Hin). eapply Hblock in Hin; [|reflexivity].
      destruct Hshape as [(_ & Hs) | (Hrs & Hms & _)]; [|tauto].
      rewrite Hs in Hin. destruct Hin.
    + intros (Hrs & Hms).
      destruct Hshape as [([? | ?] & _) | (_ & _ & [Hs | (e & Hs)])];
        [tauto | tauto | |];
        do 3 eexists; apply in_or_app; right; apply in_or_app; left;
        rewrite Hs; in_list.
  - intros rs ms r Hin. eapply Hblock in Hin; [|reflexivity].
    destruct Hshape as [(_ & Hs) | (_ & _ & [Hs | (e & Hs)])];
      rewrite Hs in Hin; invert_in Hin; split; reflexivity.
Qed.

(** *** How the body ends *)

Lemma bind_outcome {A B : Type} (m : M A) (k : A -> M B) (h : list event)
    (a : A) :
  snd (m h) = Resolved a ->
  snd (bind m k h) = snd (k a (h ++ events m h)).
Proof.
  unfold events, bind. destruct (m h) as [t r]. simpl. intros ->.
  now destruct (k a (h ++ t)).
Qed.

(** The diagnostic block ends with a call of [checkMissedNotifications] and
    the way that call ends. *)
Lemma diagnostic_block_outcome (h : list event) :
  exists before r,
    events (diagnostic_block w) h = before ++ [CheckMissedNotifications r] /\
    snd (diagnostic_block w h) = r.
Proof.
  run_block.
  all: repeat match goal with u : unit |- _ => destruct u end.
  all: first
    [ eexists [_], _; split; reflexivity
    | eexists [_; _], _; split; reflexivity
    | eexists [_; _; _], _; split; reflexivity
    | eexists [_; _; _; _], _; split; reflexivity
    | eexists [_; _; _; _; _], _; split; reflexivity
    | eexists [_; _; _; _; _; _], _; split; reflexivity ].
Qed.

(** X11: the last thing the body does is a call of
    [checkMissedNotifications], and the body ends the way this call ends:
    the promise of [initializeApp] rejects only if that last call throws,
    and no failure of an earlier step reaches it. *)
Theorem body_ends_as_last_check (h : list event) :
  exists before r,
    events (initializeApp w) h = before ++ [CheckMissedNotifications r] /\
    snd (initializeApp w h) = r.
Proof.
  unfold initializeApp.
  rewrite (bind_events _ _ _ tt), (bind_outcome _ _ _ tt) by reflexivity.
  rewrite (bind_events _ _ _
             (getState w (h ++ events (console_log _) h))),
    (bind_outcome _ _ _ (getState w (h ++ events (console_log _) h)))
    by reflexivity.
  rewrite (bind_events _ _ _ tt), (bind_outcome _ _ _ tt)
    by apply backend_sync_block_returns.
  rewrite (bind_events _ _ _ tt), (bind_outcome _ _ _ tt)
    by apply migration_block_returns.
  rewrite (bind_events _ _ _ tt), (bind_outcome _ _ _ tt) by reflexivity.
  match goal with
  | |- context [snd (diagnostic_block w ?hd)] =>
      destruct (diagnostic_block_outcome hd) as (before & r & Hd & Hr)
  end.
  rewrite Hd, Hr.
  match goal with
  | |- exists _ _, ?a ++ ?b ++ ?c ++ ?d ++ ?e ++ _ = _ /\ _ =>
      exists (a ++ b ++ c ++ d ++ e ++ before), r
  end.
  split; [|reflexivity].
  rewrite <- !app_assoc. reflexivity.
Qed.

(** *** What is logged when a call rejects *)

Lemma followed_by_app (x y : event) (t before after : list event) :
  followed_by x y t -> followed_by x y (before ++ t ++ after).
Proof.
  intros (b & a & ->). exists (before ++ b), (a ++ after).
  rewrite <- !app_assoc. reflexivity.
Qed.

(** X12: when [syncUserDataToBackend], [migrateExistingReminders], the
    diagnostic or the recovery rejects, the very next thing the body does is
    [console.error] with the message of its [catch] block and the error. A
    failed sync is logged under the message of the failed initialisation. *)
Theorem rejections_are_logged (h : list event) (error : Error) :
  let t := events (initializeApp w) h in
  (forall rs ms profile,
     In (SyncUserDataToBackend rs ms profile (Rejected error)) t ->
     followed_by (SyncUserDataToBackend rs ms profile (Rejected error))
       (ConsoleError "❌ Backend sync initialization failed:" error) t) /\
  (forall rs ms,
     In (MigrateExistingReminders rs ms (Rejected error)) t ->
     followed_by (MigrateExistingReminders rs ms (Rejected error))
       (ConsoleError "❌ iOS PWA reminder migration failed:" error) t) /\
  (In (DiagnoseIOSPWANotificationIssues (Rejected error)) t ->
   followed_by (DiagnoseIOSPWANotificationIssues (Rejected error))
     (ConsoleError "❌ Failed to run iOS PWA diagnostic:" error) t) /\
  (In (ImplementMissedDoseRecovery (Rejected error)) t ->
   followed_by (ImplementMissedDoseRecovery (Rejected error))
     (ConsoleError "❌ Failed to run iOS PWA diagnostic:" error) t).
Proof.
  intros t. subst t.
  destruct (initializeApp_events w h)
    as (state & h_sync & h_migration & h_diagnostic & Ht).
  rewrite Ht.
  pose proof (call_in_block state h_sync h_migration h_diagnostic) as Hblock.
  split; [|split; [|split]].
  - intros rs ms profile Hin.
    pose proof Hin as H0. eapply (Hblock _ 2) in H0; [|reflexivity].
    destruct H0 as [[_ H] | [[? _] | [? _]]];
      [|lia..].
    apply (followed_by_app _ _ _ [_; _] _).
    destruct (backend_sync_block_events w (reminders state)
                (medications state) h_sync)
      as [(e & Hs) | [(_ & _ & Hs) | (_ & s & r & tail & Hs & Htail)]];
      rewrite Hs in H |- *.
    + invert_in H.
    + invert_in H.
    + apply in_app_or in H. destruct H as [H | H].
      * invert_in H. subst tail.
        eexists [_; _; _; _; _], _. reflexivity.
      * destruct r as [[|]|e]; [subst tail ..]; invert_in H.
  - intros rs ms Hin.
    pose proof Hin as H0. eapply (Hblock _ 3) in H0; [|reflexivity].
    destruct H0 as [[? _] | [[_ H] | [? _]]];
      [lia| |lia].
    rewrite app_assoc. apply followed_by_app.
    destruct (migration_block_events w (reminders state)
                (medications state) h_migration)
      as [(_ & Hs) | (_ & _ & [Hs | (e & Hs)])]; rewrite Hs in H |- *;
      invert_in H.
    eexists [_], _. reflexivity.
  - intros Hin.
    pose proof Hin as H0. eapply (Hblock _ 4) in H0; [|reflexivity].
    destruct H0 as [[? _] | [[? _] | [_ H]]];
      [lia..|].
    rewrite !app_assoc. rewrite <- (app_nil_r (events (diagnostic_block w) _)).
    apply followed_by_app.
    destruct (diagnostic_block_events w h_diagnostic)
      as [(e1 & r1 & Hs) |
          [(d & _ & [Hs | (e1 & r1 & Hs)]) |
           (d & _ & [Hs | [(e1 & r1 & Hs) | (e1 & r1 & Hs)]])]];
      rewrite Hs in H |- *; invert_in H.
    eexists [], _. reflexivity.
  - intros Hin.
    pose proof Hin as H0. eapply (Hblock _ 5) in H0; [|reflexivity].
    destruct H0 as [[? _] | [[? _] | [_ H]]];
      [lia..|].
    rewrite !app_assoc. rewrite <- (app_nil_r (events (diagnostic_block w) _)).
    apply followed_by_app.
    destruct (diagnostic_block_events w h_diagnostic)
      as [(e1 & r1 & Hs) |
          [(d & _ & [Hs | (e1 & r1 & Hs)]) |
           (d & _ & [Hs | [(e1 & r1 & Hs) | (e1 & r1 & Hs)]])]];
      rewrite Hs in H |- *; invert_in H.
    eexists [_; _; _], _. reflexivity.
Qed.

(** *** Counting the runs of the two callbacks *)

Lemma count_events_app (p : event -> bool) (t1 t2 : list event) :
  count_events p (t1 ++ t2) = count_events p t1 + count_events p t2.
Proof.
  unfold count_events. now rewrite List.filter_app, List.length_app.
Qed.

Lemma count_events_none (p : event -> bool) (t : list event) :
  Forall (fun e => p e = false) t -> count_events p t = 0.
Proof.
  unfold count_events. induction 1 as [|e t He _ IH]; simpl.
  - reflexivity.
  - now rewrite He.
Qed.

(** The three blocks log neither the first line of the body nor the line of
    the focus handler. *)
Lemma backend_sync_block_logs (rs : list Reminder) (ms : list Medication)
    (h : list event) :
  Forall (fun e => is_start e = false /\ is_focus_log e = false)
    (events (backend_sync_block w rs ms) h).
Proof.
  destruct (backend_sync_block_events w rs ms h)
    as [(e & ->) | [(_ & _ & ->) | (_ & s & r & tail & -> & Htail)]];
    [ | | destruct r as [[|]|e]; subst tail ]; repeat constructor.
Qed.

Lemma migration_block_logs (rs : list Reminder) (ms : list Medication)
    (h : list event) :
  Forall (fun e => is_start e = false /\ is_focus_log e = false)
    (events (migration_block w rs ms) h).
Proof.
  destruct (migration_block_events w rs ms h)
    as [(_ & ->) | (_ & _ & [-> | (e & ->)])]; repeat constructor.
Qed.

Lemma diagnostic_block_logs (h : list event) :
  Forall (fun e => is_start e = false /\ is_focus_log e = false)
    (events (diagnostic_block w) h).
Proof.
  destruct (diagnostic_block_events w h)
    as [(e1 & r1 & ->) |
        [(d & _ & [-> | (e1 & r1 & ->)]) |
         (d & _ & [-> | [(e1 & r1 & ->) | (e1 & r1 & ->)]])]];
    repeat constructor.
Qed.

Lemma Forall_proj (P Q : event -> Prop) (t : list event) :
  Forall (fun e => P e /\ Q e) t -> Forall P t /\ Forall Q t.
Proof. induction 1 as [|e t [Hp Hq] _ [IHp IHq]]; split; auto. Qed.

Lemma initializeApp_counts (h : list event) :
  count_events is_start (events (initializeApp w) h) = 1 /\
  count_events is_focus_log (events (initializeApp w) h) = 0.
Proof.
  destruct (initializeApp_events w h)
    as (state & h_sync & h_migration & h_diagnostic & ->).
  destruct (Forall_proj _ _ _
              (backend_sync_block_logs (reminders state) (medications state)
                 h_sync)) as [S1 S2].
  destruct (Forall_proj _ _ _
              (migration_block_logs (reminders state) (medications state)
                 h_migration)) as [M1 M2].
  destruct (Forall_proj _ _ _ (diagnostic_block_logs h_diagnostic))
    as [D1 D2].
  rewrite !count_events_app.
  rewrite !(count_events_none _ _ S1), !(count_events_none _ _ S2),
    !(count_events_none _ _ M1), !(count_events_none _ _ M2),
    !(count_events_none _ _ D1), !(count_events_none _ _ D2).
  split; reflexivity.
Qed.

Lemma handleFocus_counts (h : list event) :
  count_events is_start (events (handleFocus w) h) = 0 /\
  count_events is_focus_log (events (handleFocus w) h) = 1.
Proof.
  destruct (handleFocus_events w h) as [r ->]. split; reflexivity.
Qed.

(** *** The phases of a mounted component *)

Lemma now_dispatch (ls : list (string * callback)) (b : browser) :
  now (fold_left (fun b l => invoke w (snd l) b) ls b) = now b.
Proof.
  revert b. induction ls as [|l ls IH]; intros b; simpl;
    [reflexivity | now rewrite IH].
Qed.

(** Time passes only by [Elapse]. *)
Lemma now_step (b : browser) (a : action) :
  now (step w b a) = now b + elapsed [a].
Proof.
  destruct a as [ms | id | |]; simpl.
  - lia.
  - unfold fire. destruct (find _ _) as [t|];
      [destruct (_ <=? _)%nat|]; simpl; lia.
  - unfold dispatch. rewrite now_dispatch. lia.
  - unfold unmount. destruct (cleanup b); simpl; lia.
Qed.

Lemma elapsed_app (actions1 actions2 : list action) :
  elapsed (actions1 ++ actions2) = elapsed actions1 + elapsed actions2.
Proof.
  induction actions1 as [|a actions1 IH]; simpl; [reflexivity|].
  destruct a; simpl; lia.
Qed.

Lemma now_run (actions : list action) (b : browser) :
  now (run w actions b) = now b + elapsed actions.
Proof.
  revert b. induction actions as [|a actions IH]; intros b; simpl.
  - lia.
  - rewrite IH, now_step. destruct a; simpl; lia.
Qed.

(** What one action does to a mounted component: the timer fires at most
    once and only when due; the history grows by the run of the body, by a
    run of the focus handler, or not at all. *)
Lemma step_mounted (b : browser) (a : action) :
  pending b \/ fired b -> a <> Unmount ->
  (pending (step w b a) \/ fired (step w b a)) /\
  ((pending b /\ fired (step w b a) /\ 1500 <= now b /\
    history (step w b a) =
      history b ++ events (initializeApp w) (history b)) \/
   ((pending b <-> pending (step w b a)) /\
    history (step w b a) =
      history b ++
      match a with
      | Focus => events (handleFocus w) (history b)
      | _ => []
      end)).
Proof.
  intros Hb Ha.
  destruct a as [ms | id | |]; [| | |congruence].
  - simpl. split; [exact Hb|]. right. split; [tauto|].
    now rewrite app_nil_r.
  - destruct Hb as [(Ht & Hl & Hc) | (Ht & Hl & Hc)].
    + simpl. unfold fire. rewrite Ht. cbn [find timer_id].
      destruct (Nat.eqb_spec 1 id) as [<- | Hne].
      * cbn [timer_due timer_handler].
        destruct (Nat.leb_spec 1500 (now b)) as [Hle | Hlt].
        -- assert (Hf : fired
                      (invoke w InitializeApp
                         {| now := now b;
                            next_timer_id := next_timer_id b;
                            timers :=
                              List.filter
                                (fun t => negb (timer_id t =? 1)%nat)
                                [ {| timer_id := 1; timer_due := 1500;
                                     timer_handler := InitializeApp |} ];
                            listeners := listeners b;
                            history := history b;
                            cleanup := cleanup b |})).
           { unfold fired. cbn. auto. }
           split; [right; exact Hf|]. left.
           split; [now split|]. split; [exact Hf|].
           split; [exact Hle | reflexivity].
        -- split; [left; now split|]. right.
           split; [tauto | now rewrite app_nil_r].
      * split; [left; now split|]. right.
        split; [tauto | now rewrite app_nil_r].
    + simpl. unfold fire. rewrite Ht. cbn [find].
      split; [right; now split|]. right.
      split; [tauto | now rewrite app_nil_r].
  - simpl. unfold dispatch.
    assert (Hl : listeners b = [("focus", HandleFocus)])
      by (destruct Hb as [(_ & Hl & _) | (_ & Hl & _)]; exact Hl).
    rewrite Hl. cbn [List.filter fst String.eqb Ascii.eqb Bool.eqb fold_left
                       snd].
    split; [|right; split; [|reflexivity]].
    + destruct Hb as [Hb | Hb]; [left | right]; exact Hb.
    + tauto.
Qed.

Lemma pending_not_fired (b : browser) : pending b -> fired b -> False.
Proof. intros (Ht & _) (Ht' & _). congruence. Qed.

(** A run without unmount: the component stays mounted, every gain of focus
    runs the handler once, and the body runs at most once, when the timer is
    due. *)
Lemma run_mounted (actions : list action) (b : browser) :
  pending b \/ fired b -> ~ In Unmount actions ->
  (pending (run w actions b) \/ fired (run w actions b)) /\
  count_events is_focus_log (history (run w actions b)) =
    count_events is_focus_log (history b) + focus_count actions /\
  ((pending b /\ pending (run w actions b) /\
    count_events is_start (history (run w actions b)) =
      count_events is_start (history b)) \/
   (fired b /\ fired (run w actions b) /\
    count_events is_start (history (run w actions b)) =
      count_events is_start (history b)) \/
   (pending b /\ fired (run w actions b) /\
    count_events is_start (history (run w actions b)) =
      count_events is_start (history b) + 1 /\
    1500 <= now (run w actions b))).
Proof.
  revert b. induction actions as [|a actions IH]; intros b Hb Hu.
  - simpl. split; [exact Hb|]. split; [lia|].
    destruct Hb as [Hb | Hb]; [left | right; left]; auto.
  - assert (Ha : a <> Unmount) by (intros ->; apply Hu; now left).
    assert (Hu' : ~ In Unmount actions) by (intros H; apply Hu; now right).
    destruct (step_mounted b a Hb Ha) as (Hb' & Hstep).
    destruct (IH (step w b a) Hb' Hu') as (Hb2 & Hfocus & Hstart).
    change (run w (a :: actions) b) with (run w actions (step w b a)).
    split; [exact Hb2|].
    pose proof (now_run actions (step w b a)) as Hnow.
    destruct Hstep as [(Hp & Hf & Hdue & Hh) | (Hsame & Hh)].
    + destruct (initializeApp_counts (history b)) as [C1 C2].
      rewrite Hh, !count_events_app, C1, C2 in *.
      assert (Ha' : focus_count (a :: actions) = focus_count actions).
      { destruct a as [ms | id | |]; try reflexivity.
        exfalso. simpl in Hh. unfold dispatch in Hh.
        destruct Hp as (_ & Hl & _). rewrite Hl in Hh.
        cbn [List.filter fst String.eqb Ascii.eqb Bool.eqb fold_left snd]
          in Hh.
        rewrite history_invoke in Hh. apply app_inv_head in Hh.
        pose proof (f_equal (count_events is_focus_log) Hh) as Hc.
        cbn [run_callback] in Hc.
        rewrite (proj2 (handleFocus_counts (history b))), C2 in Hc.
        discriminate Hc. }
      split; [lia|]. right. right.
      split; [exact Hp|].
      destruct Hstart as [(Hp2 & _) | [(_ & Hf2 & Hs) | (Hp2 & _)]].
      * destruct (pending_not_fired _ Hp2 Hf).
      * split; [exact Hf2|]. rewrite now_step in Hnow. lia.
      * destruct (pending_not_fired _ Hp2 Hf).
    + assert (Hc : count_events is_start (history (step w b a)) =
                   count_events is_start (history b) /\
                   count_events is_focus_log (history (step w b a)) =
                   count_events is_focus_log (history b) + focus_count [a]).
      { rewrite Hh, !count_events_app.
        destruct a as [ms | id | |]; cbn; lia. }
      destruct Hc as [Hc1 Hc2].
      assert (Ha' : focus_count (a :: actions) =
                    focus_count [a] + focus_count actions)
        by (destruct a; reflexivity).
      split; [lia|].
      destruct Hstart
        as [(Hp1 & Hp2 & Hs) | [(Hf1 & Hf2 & Hs) | (Hp1 & Hf2 & Hs & Hdue)]].
      * left. split; [tauto|]. split; [exact Hp2 | lia].
      * right. left. split; [|split; [exact Hf2 | lia]].
        destruct Hb as [Hp | Hf]; [|exact Hf].
        destruct (pending_not_fired _ (proj1 Hsame Hp) Hf1).
      * right. right. split; [tauto|]. split; [exact Hf2|]. split; lia.
Qed.

(** The teardown of a mounted component, whether its timer has fired or not.
    *)
Lemma unmount_mounted (b : browser) :
  pending b \/ fired b ->
  torn_down (unmount b) /\
  history (unmount b) =
    history b ++ [ ClearTimeout 1; RemoveEventListener "focus" HandleFocus ].
Proof.
  intros [Hp | (Ht & Hl & Hc)]; [now apply unmount_pending|].
  unfold unmount, torn_down. rewrite Hc. simpl.
  rewrite Ht, Hl. simpl. rewrite <- app_assoc. repeat split.
Qed.

Lemma run_unmount (before after : list action) (b : browser) :
  pending b \/ fired b -> ~ In Unmount before ->
  torn_down (run w (before ++ Unmount :: after) b) /\
  history (run w (before ++ Unmount :: after) b) =
    history (run w before b) ++
    [ ClearTimeout 1; RemoveEventListener "focus" HandleFocus ] /\
  now (run w before b) <= now (run w (before ++ Unmount :: after) b).
Proof.
  intros Hb Hu.
  destruct (run_mounted before b Hb Hu) as (Hb' & _).
  destruct (unmount_mounted _ Hb') as (Hdown & Hh).
  rewrite run_app. cbn [run fold_left step].
  fold (run w after (unmount (run w before b))).
  destruct (torn_down_run w after _ Hdown) as (Hdown' & Hh').
  split; [exact Hdown'|]. split; [congruence|].
  rewrite (now_run after).
  pose proof (now_step (run w before b) Unmount) as Hn. simpl in Hn. lia.
Qed.

Lemma first_unmount (actions : list action) :
  ~ In Unmount actions \/
  exists before after,
    actions = before ++ Unmount :: after /\ ~ In Unmount before.
Proof.
  induction actions as [|a actions [IH | (before & after & -> & IH)]].
  - left. intros [].
  - destruct a as [ms | id | |].
    1-3: left; intros [H | H]; [discriminate H | now apply IH].
    right. exists [], actions. split; [reflexivity | intros []].
  - destruct a as [ms | id | |].
    1-3: right; eexists (_ :: before), after; split; [reflexivity|];
         intros [H | H]; [discriminate H | now apply IH].
    right. exists [], (before ++ Unmount :: after).
    split; [reflexivity | intros []].
Qed.

(** X13: whatever happens to the mounted page, the body of the bootstrap
    starts at most once, and if it started then at least 1500 ms have
    passed since [App] mounted. *)
Theorem body_runs_once_when_due (actions : list action) :
  let b := run w actions (mount new_page) in
  count_events is_start (history b) <= 1 /\
  (count_events is_start (history b) = 1 -> 1500 <= elapsed actions).
Proof.
  intros b. subst b.
  destruct (mount_new_page (Reminder := Reminder) (Medication := Medication)
              (UserProfile := UserProfile) (Error := Error))
    as (Hp & Hnow & Hh).
  assert (H0 : count_events is_start
                 (history
                    (mount new_page
                     : @App.browser Reminder Medication UserProfile Error)) =
               0) by (rewrite Hh; reflexivity).
  assert (Hmounted : forall before,
            ~ In Unmount before ->
            count_events is_start (history (run w before (mount new_page)))
              <= 1 /\
            (count_events is_start
               (history (run w before (mount new_page))) = 1 ->
             1500 <= elapsed before)).
  { intros before Hu.
    destruct (run_mounted before (mount new_page) (or_introl Hp) Hu)
      as (_ & _ & Hstart).
    pose proof (now_run before (mount new_page)) as Hn.
    rewrite Hnow in Hn. rewrite H0 in Hstart.
    destruct Hstart
      as [(_ & _ & Hs) | [((Ht & _) & _) | (_ & _ & Hs & Hdue)]].
    - lia.
    - destruct Hp as (Ht' & _). congruence.
    - lia. }
  destruct (first_unmount actions) as [Hu | (before & after & -> & Hu)].
  - now apply Hmounted.
  - destruct (run_unmount before after (mount new_page) (or_introl Hp) Hu)
      as (_ & Hhist & _).
    rewrite Hhist, count_events_app, elapsed_app.
    destruct (Hmounted before Hu) as [H1 H2].
    cbn [count_events List.filter is_start List.length].
    split; [lia|]. intros H. assert (1500 <= elapsed before) by (apply H2; lia).
    lia.
Qed.

(** X14: as long as [App] is mounted, each gain of focus runs the focus
    handler once, before and after the timer fired; once [App] is
    unmounted no gain of focus runs it. *)
Theorem focus_handler_runs_while_mounted (before after : list action) :
  ~ In Unmount before ->
  count_events is_focus_log (history (run w before (mount new_page))) =
    focus_count before /\
  count_events is_focus_log
    (history (run w (before ++ Unmount :: after) (mount new_page))) =
    focus_count before.
Proof.
  intros Hu.
  destruct (mount_new_page (Reminder := Reminder) (Medication := Medication)
              (UserProfile := UserProfile) (Error := Error))
    as (Hp & Hnow & Hh).
  destruct (run_mounted before (mount new_page) (or_introl Hp) Hu)
    as (_ & Hfocus & _).
  rewrite Hh in Hfocus.
  change (count_events is_focus_log
            [ SetTimeout InitializeApp 1500 1;
              AddEventListener "focus" HandleFocus ]) with 0 in Hfocus.
  rewrite Nat.add_0_l in Hfocus.
  split; [exact Hfocus|].
  destruct (run_unmount before after (mount new_page) (or_introl Hp) Hu)
    as (_ & Hhist & _).
  rewrite Hhist, count_events_app, Hfocus. cbn. lia.
Qed.

(** X15: whenever [App] unmounts, whether the timer has fired or not, the
    teardown calls [clearTimeout] and [removeEventListener] and leaves no
    timer and no listener; from then on the body of the bootstrap does not
    start, whatever happens to the page. (A body that started before the
    unmount is not cancelled by it: nothing in the teardown reaches it.) *)
Theorem teardown_at_any_time (before after : list action) :
  ~ In Unmount before ->
  let mounted := run w before (mount new_page) in
  let final := run w (before ++ Unmount :: after) (mount new_page) in
  timers final = [] /\
  listeners final = [] /\
  In (ClearTimeout 1) (history final) /\
  In (RemoveEventListener "focus" HandleFocus) (history final) /\
  count_events is_start (history final) =
    count_events is_start (history mounted).
Proof.
  intros Hu mounted final. subst mounted final.
  destruct (mount_new_page (Reminder := Reminder) (Medication := Medication)
              (UserProfile := UserProfile) (Error := Error))
    as (Hp & _).
  destruct (run_unmount before after (mount new_page) (or_introl Hp) Hu)
    as ((Ht & Hl & _) & Hhist & _).
  split; [exact Ht|]. split; [exact Hl|]. rewrite Hhist.
  split; [apply in_or_app; right; left; reflexivity|].
  split; [apply in_or_app; right; right; left; reflexivity|].
  rewrite count_events_app. cbn. lia.
Qed.

End Bootstrap.

Lemma rejections_are_logged_witness :
  followed_by
    (SyncUserDataToBackend [1] [7] (Some tt) (Rejected "sync down"))
    (ConsoleError "❌ Backend sync initialization failed:" "sync down")
    (events (initializeApp Scenarios.failing_sync_world) []).
Proof.
  apply (proj1 (rejections_are_logged Scenarios.failing_sync_world []
                  "sync down")).
  in_list.
Defined.

Lemma focus_handler_runs_while_mounted_witness :
  ~ In Unmount Scenarios.mounted_actions /\
  count_events is_focus_log
    (history
       (run Scenarios.failing_sync_world
          (Scenarios.mounted_actions ++ Unmount :: Scenarios.later_actions)
          (mount new_page))) = 2.
Proof.
  assert (H : ~ In Unmount Scenarios.mounted_actions)
    by (simpl; intuition discriminate).
  split; [exact H|].
  exact (proj2 (focus_handler_runs_while_mounted Scenarios.failing_sync_world
                  Scenarios.mounted_actions Scenarios.later_actions H)).
Defined.

Lemma teardown_at_any_time_witness :
  ~ In Unmount Scenarios.mounted_actions /\
  listeners
    (run Scenarios.failing_sync_world
       (Scenarios.mounted_actions ++ Unmount :: Scenarios.later_actions)
       (mount new_page)) = [].
Proof.
  assert (H : ~ In Unmount Scenarios.mounted_actions)
    by (simpl; intuition discriminate).
  split; [exact H|].
  exact (proj1 (proj2 (teardown_at_any_time Scenarios.failing_sync_world
                         Scenarios.mounted_actions Scenarios.later_actions
                         H))).
Defined.

End AppMore.

(** ** The global slot for update notifications *)

Module UpdateSlotFacts.

Import UpdateSlot.

#[local] Open Scope list_scope.

Section Slot.

Context {Callback : Type}.

Abbreviation action := (@action Callback).
Abbreviation state := (@state Callback).

Lemma run_snoc (actions : list action) (a : action) (s : state) :
  run (actions ++ [a]) s = step (run actions s) a.
Proof. unfold run. now rewrite fold_left_app. Qed.

Lemma current_snoc (actions : list action) (a : action) :
  current (actions ++ [a]) =
  match a with
  | Render f => Some f
  | CallSlot _ => current actions
  | Unmount => None
  end.
Proof. unfold current. now rewrite fold_left_app. Qed.

(** The slot and the dependency of the effect go together. *)
Lemma slot_is_current (actions : list action) :
  slot (run actions initial) = current actions /\
  dependency (run actions initial) = current actions.
Proof.
  induction actions as [|a actions [IHs IHd]] using rev_ind.
  - split; reflexivity.
  - rewrite run_snoc, current_snoc.
    destruct a as [f | callback |]; cbn [step].
    + destruct (dependency (run actions initial)) as [g|] eqn:E;
        [|split; reflexivity].
      destruct (Nat.eqb_spec f g) as [-> | Hne]; [|split; reflexivity].
      split; congruence.
    + destruct (slot (run actions initial)) eqn:E; cbn; split; congruence.
    + destruct (dependency (run actions initial)) eqn:E; cbn;
        split; congruence.
Qed.

Lemma prompts_snoc (actions : list action) (a : action) :
  prompts (run (actions ++ [a]) initial) =
  prompts (run actions initial) ++
  match a, current actions with
  | CallSlot callback, Some f => [(f, callback)]
  | _, _ => []
  end.
Proof.
  rewrite run_snoc. destruct (slot_is_current actions) as [Hs Hd].
  destruct a as [f | callback |]; cbn [step].
  - rewrite app_nil_r.
    destruct (dependency (run actions initial)) as [g|];
      [destruct (f =? g)%nat|]; reflexivity.
  - rewrite Hs. destruct (current actions); cbn; [reflexivity|].
    now rewrite app_nil_r.
  - rewrite app_nil_r.
    destruct (dependency (run actions initial)); reflexivity.
Qed.

(** X16: [window.showAppUpdateNotification] is present exactly while [App]
    is mounted and holds the [showUpdateNotification] of the last render;
    a call of the slot reaches [showUpdateNotification] exactly when the
    slot is present, with the function of the last render before the call
    and the callback of the caller. *)
Theorem slot_forwards_to_latest_render (actions : list action) :
  let s := run actions initial in
  slot s = current actions /\
  (forall f callback,
     In (f, callback) (prompts s) <->
     exists before after,
       actions = before ++ CallSlot callback :: after /\
       current before = Some f).
Proof.
  intros s. subst s. split; [apply slot_is_current|].
  induction actions as [|a actions IH] using rev_ind; intros f callback.
  - cbn. split; [contradiction|].
    intros (before & after & H & _). destruct before; discriminate H.
  - rewrite prompts_snoc, in_app_iff, IH. split.
    + intros [(before & after & -> & Hc) | Hin].
      * exists before, (after ++ [a]). rewrite <- app_assoc. now split.
      * destruct a as [g | callback' |]; try destruct Hin.
        destruct (current actions) as [g|] eqn:E; [|destruct Hin].
        destruct Hin as [[= <- <-] | []].
        exists actions, []. now split.
    + intros (before & after & Heq & Hc).
      destruct after as [|a' after _] using rev_ind.
      * apply app_inj_tail in Heq as [<- ->]. right.
        rewrite Hc. cbn. now left.
      * rewrite app_comm_cons, app_assoc in Heq.
        apply app_inj_tail in Heq as [-> <-]. left. now exists before, after.
Qed.

End Slot.

End UpdateSlotFacts.

(** ** The routes *)

Module RouterFacts.

Import Router.

Section Matching.

Variable matchPath : string -> string -> bool.

(** What is asked of the router: [*] matches every location, the pattern
    [/dashboard] matches the location [/dashboard], the pattern [/] does
    not. *)
Hypothesis splat : forall location, matchPath "*" location = true.
Hypothesis dashboard : matchPath "/dashboard" "/dashboard" = true.
Hypothesis root : matchPath "/" "/dashboard" = false.

Lemma render_dashboard : render matchPath "/dashboard" = Some (Page Dashboard).
Proof. unfold render, routes. cbn [find fst]. now rewrite root, dashboard. Qed.

Lemma render_total (location : string) :
  (exists p, render matchPath location = Some (Page p)) \/
  render matchPath location = Some (Navigate "/dashboard").
Proof.
  unfold render, routes. cbn [find fst].
  repeat match goal with
         | |- context [if matchPath ?p location then _ else _] =>
             destruct (matchPath p location) eqn:?; cbn [snd];
             [first [right; reflexivity | left; eexists; reflexivity]|]
         end.
  rewrite splat in *. discriminate.
Qed.

(** X17: with a router for which [*] matches every location, [/dashboard]
    matches itself and [/] does not match [/dashboard], every location
    settles on a page after at most one redirection: either a route of the
    table shows a page at the location itself, or the router redirects to
    [/dashboard] and shows [Dashboard]. *)
Theorem every_location_settles (location : string) :
  exists settled p,
    settle matchPath 1 location = Some (settled, p) /\
    ((settled = location /\ render matchPath location = Some (Page p)) \/
     (settled = "/dashboard" /\ p = Dashboard /\
      render matchPath location = Some (Navigate "/dashboard"))).
Proof.
  cbn [settle].
  destruct (render_total location) as [[p Hp] | Hn].
  - rewrite Hp. exists location, p. auto.
  - rewrite Hn, render_dashboard. exists "/dashboard", Dashboard. auto.
Qed.

End Matching.

Lemma every_location_settles_witness :
  exists settled p,
    settle exact_match 1 "/no-such-page" = Some (settled, p) /\
    ((settled = "/no-such-page" /\
      render exact_match "/no-such-page" = Some (Page p)) \/
     (settled = "/dashboard" /\ p = Dashboard /\
      render exact_match "/no-such-page" = Some (Navigate "/dashboard"))).
Proof.
  apply (every_location_settles exact_match).
  - intros location. reflexivity.
  - reflexivity.
  - reflexivity.
Defined.

End RouterFacts.
